(** * midl: [createFunctionWithMiddleware]

    A shallow embedding of [src/functions/create-function-with-middleware.ts]
    and the properties of its hook protocol.

    The decorator is generic in the base function and in its hooks, which are
    arbitrary JavaScript closures: they may read and write state of their
    own and they may throw.  They are modelled as state-passing functions
    over a store [State] that return a completion (a normal value or a thrown
    one) together with the new store.  The decorator's own code runs in the
    same kind of monad, over a state that adds to the store

    - the local variable [inputs] of [functionWithMiddleware], which the
      [try] block reassigns and the [catch] block reads, and
    - the list of the calls the decorator itself has made, in order, which
      is what a spy on each hook would record. *)

From Stdlib Require Import ZArith String Ascii List Bool Lia DecimalString.
Import ListNotations.
Local Open Scope string_scope.
Local Open Scope list_scope.

(** ** JavaScript values *)

Module JS.

(** The values the model covers: the primitives, plain objects and [Error]
    instances.  Objects carry the reference that is their identity.  Of the
    numbers the model covers NaN and the safe integers, those [n] with
    [Number.isSafeInteger(n)]: [Num n] stands for a JavaScript number only
    when [isSafeInteger n] holds (see [safeValue] below).  Beyond them a
    JavaScript number is a rounded double that prints by its shortest
    digits, in exponent form from 1e21 on, which the model does not
    describe. *)
Inductive value : Type :=
| Undefined
| Null
| Bool (b : bool)
| Num (n : Z)
| NaN
| Str (s : string)
| Obj (ref : positive)
| Err (ref : positive) (message : string).

(** [a === b].  Objects are compared by reference, NaN is equal to
    nothing. *)
Definition strictEquals (a b : value) : bool :=
  match a, b with
  | Undefined, Undefined => true
  | Null, Null => true
  | Bool x, Bool y => Bool.eqb x y
  | Num x, Num y => Z.eqb x y
  | Str x, Str y => String.eqb x y
  | Obj r, Obj r' => Pos.eqb r r'
  | Err r _, Err r' _ => Pos.eqb r r'
  | _, _ => false
  end.

(** [a !== b] *)
Definition strictNotEquals (a b : value) : bool := negb (strictEquals a b).

(** [Number.isSafeInteger(n)]: between [-(2^53 - 1)] and [2^53 - 1]. *)
Definition isSafeInteger (n : Z) : bool :=
  (- (2 ^ 53 - 1) <=? n)%Z && (n <=? 2 ^ 53 - 1)%Z.

(** The values for which the model stands for JavaScript: any value but a
    number beyond the safe integers. *)
Definition safeValue (v : value) : bool :=
  match v with
  | Num n => isSafeInteger n
  | _ => true
  end.

(** The decimal numeral of [n].  This is how JavaScript prints [n] when [n]
    is a safe integer, and only then. *)
Definition stringOfZ (n : Z) : string := NilZero.string_of_int (Z.to_int n).

(** The string a template literal [`${v}`] puts in place of [v]: plain
    objects print as [Object.prototype.toString] does, errors as
    [Error.prototype.toString] does, numbers by their decimal numeral.  It
    is the text JavaScript produces when [safeValue v] holds; the
    properties that state a text assume it. *)
Definition toString (v : value) : string :=
  match v with
  | Undefined => "undefined"
  | Null => "null"
  | Bool true => "true"
  | Bool false => "false"
  | Num n => stringOfZ n
  | NaN => "NaN"
  | Str s => s
  | Obj _ => "[object Object]"
  | Err _ "" => "Error"
  | Err _ message => "Error: " ++ message
  end.

(** One element of [Array.prototype.join]: [undefined] and [null] give the
    empty string. *)
Definition joinElement (v : value) : string :=
  match v with
  | Undefined | Null => ""
  | _ => toString v
  end.

(** [xs.join(separator)] *)
Fixpoint join (separator : string) (xs : list value) : string :=
  match xs with
  | [] => ""
  | [x] => joinElement x
  | x :: rest => joinElement x ++ separator ++ join separator rest
  end.

End JS.
Import JS.

(** ** Completions and the state and exception monad *)

(** How a JavaScript call ends: it returns a value or it throws one. *)
Inductive completion (E A : Type) : Type :=
| Normal (a : A)
| Throw (e : E).
Arguments Normal {E A} a.
Arguments Throw {E A} e.

(** Code over a state [St] that may throw an [E].  A throw keeps the state
    reached so far, as in JavaScript. *)
Definition M (St E A : Type) : Type := St -> completion E A * St.

Definition ret {St E A} (a : A) : M St E A := fun st => (Normal a, st).

Definition throw {St E A} (e : E) : M St E A := fun st => (Throw e, st).

Definition bind {St E A B} (m : M St E A) (k : A -> M St E B) : M St E B :=
  fun st =>
    match m st with
    | (Normal a, st') => k a st'
    | (Throw e, st') => (Throw e, st')
    end.

(** [try { body } catch (error) { handler }] *)
Definition try_catch {St E A} (body : M St E A) (handler : E -> M St E A)
  : M St E A :=
  fun st =>
    match body st with
    | (Normal a, st') => (Normal a, st')
    | (Throw e, st') => handler e st'
    end.

Declare Scope js_scope.
Delimit Scope js_scope with js.
Notation "x <- m ;; k" := (bind m (fun x => k))
  (at level 61, m at next level, right associativity) : js_scope.
Notation "m ;; k" := (bind m (fun _ => k))
  (at level 61, right associativity) : js_scope.
Local Open Scope js_scope.

(** ** The decorator *)

Section Midl.

(** The state the base function and the hooks can reach through their
    closures (a console, a cache, counters, ...). *)
Variable State : Type.

(** User code: runs over the store and throws JavaScript values. *)
Definition Eff (A : Type) : Type := M State value A.

(** A function value over a state [St]: its [name] property and what a call
    does. *)
Record fn (St : Type) : Type := Fn {
  name : string;
  call : list value -> M St value value
}.
Arguments Fn {St} name call.
Arguments name {St} f.
Arguments call {St} f inputs.

(** The type parameter [F] of the source: the base function. *)
Definition F : Type := fn State.

(** The optional [config] object.
[[
  config?: {
    assertions?: [I, O][];
    handleError?: (definition: F, error: Error, ...inputs: I) => O;
    handleInput?: (definition: F, ...inputs: I) => I;
    handleOutput?: (definition: F, output: O, ...inputs: I) => O;
  }
]] *)
Record Config : Type := {
  assertions : option (list (list value * value));
  handleError : option (F -> value -> list value -> Eff value);
  handleInput : option (F -> list value -> Eff (list value));
  handleOutput : option (F -> value -> list value -> Eff value)
}.

(** A call made by the decorator, with its arguments after [definition]. *)
Inductive event : Type :=
| CallInput (inputs : list value)
| CallDefinition (inputs : list value)
| CallOutput (output : value) (inputs : list value)
| CallError (error : value) (inputs : list value)
| CallWrapped (inputs : list value).

(** What a caller of the decorator or of the function it returns sees: the
    store and the record of the decorator's calls. *)
Record world : Type := World {
  store : State;
  calls : list event
}.

(** The state of one activation of [functionWithMiddleware]: the world and
    the variable [inputs]. *)
Record frame : Type := Frame {
  inputs : list value;
  frameStore : State;
  frameCalls : list event
}.

(** Read the variable [inputs]. *)
Definition getInputs {E} : M frame E (list value) :=
  fun fr => (Normal (inputs fr), fr).

(** [inputs = xs] *)
Definition setInputs {E} (xs : list value) : M frame E unit :=
  fun fr => (Normal tt, Frame xs (frameStore fr) (frameCalls fr)).

(** The decorator calls user code: the call is recorded, then the callee
    runs on the store. *)
Definition invoke {A} (ev : event) (callee : Eff A) : M frame value A :=
  fun fr =>
    let (result, s) := callee (frameStore fr) in
    (result, Frame (inputs fr) s (frameCalls fr ++ [ev])).

(** Entering a function binds its rest parameter [...inputs]; leaving it
    drops the variable. *)
Definition withInputs {A} (args : list value) (body : M frame value A)
  : M world value A :=
  fun w =>
    let (result, fr) := body (Frame args (store w) (calls w)) in
    (result, World (frameStore fr) (frameCalls fr)).

(** A call of the base function by its caller, without the decorator in
    between: nothing is recorded. *)
Definition direct {A} (callee : Eff A) : M world value A :=
  fun w =>
    let (result, s) := callee (store w) in
    (result, World s (calls w)).

(** [[
  const functionWithMiddleware = (...inputs: I): O => {
    try {
      if (handleInput) {
        inputs = handleInput(definition, ...inputs);
      }
      const output = definition(...inputs);
      if (handleOutput) {
        return handleOutput(definition, output, ...inputs);
      }
      return output;
    } catch (error) {
      if (handleError) {
        return handleError(definition, error, ...inputs);
      }
      throw error;
    }
  };
]] *)
Definition functionWithMiddleware (definition : F) (config : Config)
  (args : list value) : M world value value :=
  withInputs args
    (try_catch
       ((match handleInput config with
         | Some handleInput =>
             xs <- getInputs ;;
             xs' <- invoke (CallInput xs) (handleInput definition xs) ;;
             setInputs xs'
         | None => ret tt
         end) ;;
        xs <- getInputs ;;
        output <- invoke (CallDefinition xs) (call definition xs) ;;
        match handleOutput config with
        | Some handleOutput =>
            xs <- getInputs ;;
            invoke (CallOutput output xs) (handleOutput definition output xs)
        | None => ret output
        end)
       (fun error =>
          match handleError config with
          | Some handleError =>
              xs <- getInputs ;;
              invoke (CallError error xs) (handleError definition error xs)
          | None => throw error
          end)).

(** What the decoration call itself can throw: an error that came out of
    the wrapped function, or the [new Error(message)] of a failed
    assertion. *)
Inductive failure : Type :=
| Uncaught (error : value)
| AssertionFailure (message : string).

(** An error thrown by the wrapped function goes through the [forEach]
    callback and [forEach] itself untouched. *)
Definition propagate {A} (m : M world value A) : M world failure A :=
  fun w =>
    match m w with
    | (Normal a, w') => (Normal a, w')
    | (Throw e, w') => (Throw (Uncaught e), w')
    end.

(** The callback of [forEach] calls the wrapped function: recorded. *)
Definition note (ev : event) : M world value unit :=
  fun w => (Normal tt, World (store w) (calls w ++ [ev])).

(** [xs.forEach(callback)] *)
Fixpoint forEach {A} (callback : A -> M world failure unit) (xs : list A)
  : M world failure unit :=
  match xs with
  | [] => ret tt
  | x :: rest => callback x ;; forEach callback rest
  end.

(** [[
  `Expected ${definition.name}(${inputs.join(", ")}) to return ${output}, but got ${actualOutput}.`
]] *)
Definition mismatchMessage (definition : F) (inputs : list value)
  (output actualOutput : value) : string :=
  "Expected " ++ name definition ++ "(" ++ join ", " inputs
  ++ ") to return " ++ toString output
  ++ ", but got " ++ toString actualOutput ++ ".".

(** The callback passed to [forEach]:
[[
  ([inputs, output]) => {
    const actualOutput = functionWithMiddleware(...inputs);
    if (actualOutput !== output) {
      throw new Error(`Expected ...`);
    }
  }
]] *)
Definition checkAssertion (definition : F) (config : Config)
  (assertion : list value * value) : M world failure unit :=
  let (inputs, output) := assertion in
  actualOutput <- propagate (note (CallWrapped inputs) ;;
                             functionWithMiddleware definition config inputs) ;;
  if strictNotEquals actualOutput output
  then throw (AssertionFailure
                (mismatchMessage definition inputs output actualOutput))
  else ret tt.

(** [[
  if (!config) {
    return definition;
  }
  const { assertions, handleError, handleInput, handleOutput } = config;
  const functionWithMiddleware = ...;
  (assertions ?? []).forEach(...);
  return functionWithMiddleware as F;
]] *)
Definition createFunctionWithMiddleware (definition : F)
  (config : option Config) : M world failure (fn world) :=
  match config with
  | None => ret (Fn (name definition) (fun args => direct (call definition args)))
  | Some config =>
      forEach (checkAssertion definition config)
        (match assertions config with Some l => l | None => [] end) ;;
      ret (Fn "functionWithMiddleware" (functionWithMiddleware definition config))
  end.

(** ** Vocabulary of the properties *)

(** Which of the decorator's calls a record holds. *)
Definition isCallDefinition (ev : event) : bool :=
  match ev with CallDefinition _ => true | _ => false end.

Definition isCallOutput (ev : event) : bool :=
  match ev with CallOutput _ _ => true | _ => false end.

Definition isCallError (ev : event) : bool :=
  match ev with CallError _ _ => true | _ => false end.

(** How many calls of one kind were made. *)
Definition count (kind : event -> bool) (record : list event) : nat :=
  length (filter kind record).

(** The inputs of the assertion pairs that were checked, in order. *)
Definition checked (record : list event) : list (list value) :=
  flat_map (fun ev => match ev with CallWrapped xs => [xs] | _ => [] end)
    record.

(** The input stage as the specification words it: the hook when there is
    one, the identity otherwise. *)
Definition inputStage (definition : F) (config : Config) (x : list value)
  : Eff (list value) :=
  match handleInput config with
  | Some h => h definition x
  | None => ret x
  end.

Definition inputCalls (config : Config) (x : list value) : list event :=
  match handleInput config with
  | Some _ => [CallInput x]
  | None => []
  end.

(** The output stage as the specification words it. *)
Definition outputStage (definition : F) (config : Config) (output : value)
  (x : list value) : Eff value :=
  match handleOutput config with
  | Some h => h definition output x
  | None => ret output
  end.

Definition outputCalls (config : Config) (output : value) (x : list value)
  : list event :=
  match handleOutput config with
  | Some _ => [CallOutput output x]
  | None => []
  end.

(** The same for the optional configuration: without one the decorated
    function is the base function, which gets the inputs as passed. *)
Definition inputStageOf (definition : F) (config : option Config)
  (x : list value) : Eff (list value) :=
  match config with
  | Some config => inputStage definition config x
  | None => ret x
  end.

(** No [handleError]: no configuration, or one without that hook. *)
Definition handleErrorAbsent (config : option Config) : Prop :=
  match config with
  | Some config => handleError config = None
  | None => True
  end.

(** The three stages of the protocol. *)
Inductive stage : Type := InputStage | InvocationStage | OutputStage.

(** [Throws definition config x s0 st e xs s made]: on the inputs [x] and
    the store [s0], stage [st] is reached and throws [e]; by then the
    variable [inputs] holds [xs], the store is [s] and the decorator has
    made the calls [made]. *)
Inductive Throws (definition : F) (config : Config) (x : list value) (s0 : State)
  : stage -> value -> list value -> State -> list event -> Prop :=
| ThrowsInput h e s1 :
    handleInput config = Some h ->
    h definition x s0 = (Throw e, s1) ->
    Throws definition config x s0 InputStage e x s1 [CallInput x]
| ThrowsInvocation x' s1 e s2 :
    inputStage definition config x s0 = (Normal x', s1) ->
    call definition x' s1 = (Throw e, s2) ->
    Throws definition config x s0 InvocationStage e x' s2
      (inputCalls config x ++ [CallDefinition x'])
| ThrowsOutput h x' s1 output s2 e s3 :
    handleOutput config = Some h ->
    inputStage definition config x s0 = (Normal x', s1) ->
    call definition x' s1 = (Normal output, s2) ->
    h definition output x' s2 = (Throw e, s3) ->
    Throws definition config x s0 OutputStage e x' s3
      (inputCalls config x ++ [CallDefinition x'; CallOutput output x']).

(** A configuration that is present but empty. *)
Definition emptyConfig (config : Config) : Prop :=
  (assertions config = None \/ assertions config = Some [])
  /\ handleError config = None
  /\ handleInput config = None
  /\ handleOutput config = None.

Definition absentOrEmpty (config : option Config) : Prop :=
  match config with
  | None => True
  | Some config => emptyConfig config
  end.

(** [AllPass wrapped pairs w w']: checked one after the other from the
    world [w], every pair of [pairs] has the wrapped function return a
    value strictly equal to the expected one, and the world is then [w']. *)
Inductive AllPass (wrapped : list value -> M world value value)
  : list (list value * value) -> world -> world -> Prop :=
| AllPassNil w : AllPass wrapped [] w w
| AllPassCons inputs output rest actualOutput w w1 w2 :
    wrapped inputs (World (store w) (calls w ++ [CallWrapped inputs]))
      = (Normal actualOutput, w1) ->
    strictEquals actualOutput output = true ->
    AllPass wrapped rest w1 w2 ->
    AllPass wrapped ((inputs, output) :: rest) w w2.

(** User code that neither reads nor writes the store. *)
Definition pureCall {A} (callee : Eff A) : Prop :=
  exists result, forall s, callee s = (result, s).

(** A pure base function with pure hooks. *)
Definition pureParts (definition : F) (config : Config) : Prop :=
  (forall x, pureCall (call definition x))
  /\ (forall h x, handleInput config = Some h -> pureCall (h definition x))
  /\ (forall h output x,
        handleOutput config = Some h -> pureCall (h definition output x))
  /\ (forall h error x,
        handleError config = Some h -> pureCall (h definition error x)).

(** The world after calling [wrapped] on each input tuple of [between] in
    turn, whatever each call returns or throws. *)
Fixpoint callAll (wrapped : list value -> M world value value)
  (between : list (list value)) (w : world) : world :=
  match between with
  | [] => w
  | x :: rest => callAll wrapped rest (snd (wrapped x w))
  end.

(** The function value the decoration returns for a present
    configuration.  It is a function over the world, so it can be decorated
    in turn. *)
Definition wrapperOf (definition : F) (config : Config) : fn world :=
  Fn "functionWithMiddleware" (functionWithMiddleware definition config).

(** [assertions ?? []] *)
Definition pairsOf (config : Config) : list (list value * value) :=
  match assertions config with
  | Some pairs => pairs
  | None => []
  end.

Definition isCallInput (ev : event) : bool :=
  match ev with CallInput _ => true | _ => false end.

(** User code that keeps the property [P] of the store, however it ends. *)
Definition keeps (P : State -> Prop) {A} (callee : Eff A) : Prop :=
  forall s, P s -> P (snd (callee s)).

(** The base function and every hook of the configuration keep [P]. *)
Definition partsKeep (P : State -> Prop) (definition : F) (config : Config)
  : Prop :=
  (forall x, keeps P (call definition x))
  /\ (forall h x, handleInput config = Some h -> keeps P (h definition x))
  /\ (forall h output x,
        handleOutput config = Some h -> keeps P (h definition output x))
  /\ (forall h error x,
        handleError config = Some h -> keeps P (h definition error x)).

(** Hooks that hand on what they are given and leave the store alone:
    [handleInput] returns the inputs, [handleOutput] returns the output and
    [handleError] throws the error again. *)
Definition transparentHooks (definition : F) (config : Config) : Prop :=
  (forall h x s, handleInput config = Some h -> h definition x s = (Normal x, s))
  /\ (forall h output x s,
        handleOutput config = Some h ->
        h definition output x s = (Normal output, s))
  /\ (forall h error x s,
        handleError config = Some h -> h definition error x s = (Throw error, s)).

(** A [handleError] that returns on every error. *)
Definition recoversAlways (definition : F)
  (h : F -> value -> list value -> Eff value) : Prop :=
  forall error x s, exists output s', h definition error x s = (Normal output, s').

End Midl.

Arguments Fn {St} name call.
Arguments name {St} f.
Arguments call {St} f inputs.
Arguments Build_Config {State}.
Arguments assertions {State} c.
Arguments handleError {State} c.
Arguments handleInput {State} c.
Arguments handleOutput {State} c.
Arguments World {State}.
Arguments Frame {State}.
Arguments inputs {State} f.
Arguments frameStore {State} f.
Arguments frameCalls {State} f.
Arguments store {State} w.
Arguments calls {State} w.
Arguments functionWithMiddleware {State}.
Arguments createFunctionWithMiddleware {State}.
Arguments checkAssertion {State}.
Arguments mismatchMessage {State}.
Arguments forEach {State A}.
Arguments direct {State A}.
Arguments inputStage {State}.
Arguments inputCalls {State}.
Arguments outputStage {State}.
Arguments inputStageOf {State}.
Arguments handleErrorAbsent {State}.
Arguments outputCalls {State}.
Arguments Throws {State}.
Arguments emptyConfig {State}.
Arguments absentOrEmpty {State}.
Arguments AllPass {State}.
Arguments pureCall {State A}.
Arguments pureParts {State}.
Arguments callAll {State}.
Arguments count : simpl never.
Arguments wrapperOf {State}.
Arguments pairsOf {State}.
Arguments keeps {State} P {A} callee.
Arguments partsKeep {State}.
Arguments transparentHooks {State}.
Arguments recoversAlways {State}.

(** ** Concrete functions and hooks

    The functions of the repository's test file and of its README, over a
    store that holds the console and the next free object reference. *)

Module Examples.

Record Env : Type := {
  console : list string;
  nextRef : positive
}.

Definition env0 : Env := {| console := []; nextRef := 1%positive |}.

Definition world0 : world Env := World env0 [].

(** [console.log(line)] *)
Definition consoleLog (line : string) : M Env value unit :=
  fun env =>
    (Normal tt, {| console := console env ++ [line]; nextRef := nextRef env |}).

(** [throw new Error(message)]: the error is a fresh object. *)
Definition throwNewError {A} (message : string) : M Env value A :=
  fun env =>
    (Throw (Err (nextRef env) message),
     {| console := console env; nextRef := Pos.succ (nextRef env) |}).

(** [typeof v === 'number'] *)
Definition isNumber (v : value) : bool :=
  match v with
  | Num _ | NaN => true
  | _ => false
  end.

(** ToNumber on the values that are not strings or objects; [None] stands
    for NaN. *)
Definition toNumber (v : value) : option Z :=
  match v with
  | Null => Some 0%Z
  | Bool true => Some 1%Z
  | Bool false => Some 0%Z
  | Num n => Some n
  | _ => None
  end.

(** [a + b]: concatenation when either operand is a string or an object
    (which converts to a string), addition of numbers otherwise.  The sum
    is the JavaScript one as long as the operands and the sum are safe
    integers; beyond them JavaScript rounds. *)
Definition plus (a b : value) : value :=
  match a, b with
  | (Str _ | Obj _ | Err _ _), _ | _, (Str _ | Obj _ | Err _ _) =>
      Str (toString a ++ toString b)
  | _, _ =>
      match toNumber a, toNumber b with
      | Some m, Some n => Num (m + n)
      | _, _ => NaN
      end
  end.

(** The n-th argument of a call; a missing one is [undefined]. *)
Definition arg (n : nat) (inputs : list value) : value :=
  nth n inputs Undefined.

(** [const testFunction = (a: number, b: number): number => a + b;] *)
Definition testFunction : F Env :=
  Fn "testFunction" (fun inputs => ret (plus (arg 0 inputs) (arg 1 inputs))).

(** [const faultyFunc = () => { throw new Error("test error"); };] *)
Definition faultyFunc : F Env :=
  Fn "faultyFunc" (fun _ => throwNewError "test error").

(** [(definition, error, a, b) => "error handled"] *)
Definition errorHandled (definition : F Env) (error : value)
  (inputs : list value) : Eff Env value :=
  ret (Str "error handled").

(** [[
  const validateInput = (definition, a, b) => {
    if (typeof a !== 'number' || typeof b !== 'number') {
      throw new Error('Inputs must be numbers');
    }
    return [a, b];
  };
]] *)
Definition validateInput (definition : F Env) (inputs : list value)
  : Eff Env (list value) :=
  if negb (isNumber (arg 0 inputs)) || negb (isNumber (arg 1 inputs))
  then throwNewError "Inputs must be numbers"
  else ret [arg 0 inputs; arg 1 inputs].

(** [[
  const logOutput = (definition, output, a, b) => {
    console.log(`Adding ${a} and ${b} yields ${output}`);
    return output;
  };
]] *)
Definition logOutput (definition : F Env) (output : value)
  (inputs : list value) : Eff Env value :=
  consoleLog ("Adding " ++ toString (arg 0 inputs) ++ " and "
              ++ toString (arg 1 inputs) ++ " yields " ++ toString output) ;;
  ret output.

(** [(definition, a, b) => [b, a]] *)
Definition swapInputs (definition : F Env) (inputs : list value)
  : Eff Env (list value) :=
  ret [arg 1 inputs; arg 0 inputs].

(** [(definition, output, a, b) => { throw new Error("output rejected"); }] *)
Definition rejectOutput (definition : F Env) (output : value)
  (inputs : list value) : Eff Env value :=
  throwNewError "output rejected".

(** [(definition, error, a, b) => { throw new Error("handler failed"); }] *)
Definition failingHandler (definition : F Env) (error : value)
  (inputs : list value) : Eff Env value :=
  throwNewError "handler failed".

Definition config (pairs : option (list (list value * value)))
  (onError : option (F Env -> value -> list value -> Eff Env value))
  (onInput : option (F Env -> list value -> Eff Env (list value)))
  (onOutput : option (F Env -> value -> list value -> Eff Env value))
  : Config Env :=
  {| assertions := pairs;
     handleError := onError;
     handleInput := onInput;
     handleOutput := onOutput |}.

(** The assertion pairs of the test file, before and after its
    [assertions[1][1] = 8]. *)
Definition passingPairs : list (list value * value) :=
  [([Num 1; Num 2], Num 3); ([Num 3; Num 4], Num 7)]%Z.

Definition failingPairs : list (list value * value) :=
  [([Num 1; Num 2], Num 3); ([Num 3; Num 4], Num 8)]%Z.

(** [(definition, a, b) => [a + mark, b]] *)
Definition appendMark {St} (mark : string) (definition : F St)
  (inputs : list value) : Eff St (list value) :=
  ret [plus (arg 0 inputs) (Str mark); arg 1 inputs].

(** [(definition, ...inputs) => inputs] *)
Definition passInputs {St} (definition : F St) (inputs : list value)
  : Eff St (list value) :=
  ret inputs.

(** [(definition, output) => output] *)
Definition passOutput {St} (definition : F St) (output : value)
  (inputs : list value) : Eff St value :=
  ret output.

(** [(definition, error) => { throw error; }] *)
Definition rethrow {St} (definition : F St) (error : value)
  (inputs : list value) : Eff St value :=
  throw error.

(** [(definition, error) => text] *)
Definition answer {St} (text : string) (definition : F St) (error : value)
  (inputs : list value) : Eff St value :=
  ret (Str text).

End Examples.

(** ** Properties of the wrapped function *)

Section Properties.

Context {State : Type}.
Implicit Types (definition : F State) (config : Config State) (s : State)
  (x xs : list value) (e error output : value) (record : list event).

(** Unfold one activation of the wrapped function down to the calls of the
    base function and of the hooks. *)
Ltac activation :=
  unfold functionWithMiddleware, withInputs, try_catch, bind, invoke,
    getInputs, setInputs, ret, throw, inputStage, outputStage, inputCalls,
    outputCalls in *;
  cbn in *.

Lemma count_app kind record record' :
  count kind (record ++ record') = count kind record + count kind record'.
Proof. unfold count. now rewrite filter_app, length_app. Qed.

Lemma checked_app record record' :
  checked (record ++ record') = checked record ++ checked record'.
Proof. unfold checked. apply flat_map_app. Qed.

(** The calls made before a stage throws are calls of the input hook, of
    the base function and of the output hook only. *)
Lemma Throws_made definition config x s0 st e xs s made :
  Throws definition config x s0 st e xs s made ->
  count isCallError made = 0 /\ checked made = [].
Proof.
  intros H; destruct H; unfold inputCalls;
    destruct (handleInput config); split; reflexivity.
Qed.

(** The catch block: whatever stage of the try block throws, the error goes
    to [handleError] when there is one, with the value the variable
    [inputs] has by then, and is thrown again otherwise. *)
Lemma wrapped_catches definition config x s0 st e xs s made record :
  Throws definition config x s0 st e xs s made ->
  functionWithMiddleware definition config x (World s0 record)
  = match handleError config with
    | Some h =>
        (fst (h definition e xs s),
         World (snd (h definition e xs s)) (record ++ made ++ [CallError e xs]))
    | None => (Throw e, World s (record ++ made))
    end.
Proof.
  intros H; destruct H as [h e s1 Hh Hthrow
                          | x' s1 e s2 Hin Hbase
                          | h x' s1 output s2 e s3 Hh Hin Hbase Hout];
    activation.
  - rewrite Hh; cbn. rewrite Hthrow; cbn.
    destruct (handleError config) as [g|]; cbn; [|reflexivity].
    destruct (g definition e x s1); cbn. now rewrite <- app_assoc.
  - destruct (handleInput config) as [h|]; cbn in *.
    + rewrite Hin; cbn. rewrite Hbase; cbn.
      destruct (handleError config) as [g|]; cbn.
      * destruct (g definition e x' s2); cbn. now rewrite <- !app_assoc.
      * now rewrite <- !app_assoc.
    + inversion Hin; subst. rewrite Hbase; cbn.
      destruct (handleError config) as [g|]; cbn; [|reflexivity].
      destruct (g definition e x' s2); cbn. now rewrite <- !app_assoc.
  - rewrite Hh.
    destruct (handleInput config) as [h'|]; cbn in *.
    + rewrite Hin; cbn. rewrite Hbase; cbn. rewrite Hout; cbn.
      destruct (handleError config) as [g|]; cbn.
      * destruct (g definition e x' s3); cbn. now rewrite <- !app_assoc.
      * now rewrite <- !app_assoc.
    + inversion Hin; subst. rewrite Hbase; cbn. rewrite Hout; cbn.
      destruct (handleError config) as [g|]; cbn; [|now rewrite <- !app_assoc].
      destruct (g definition e x' s3); cbn. now rewrite <- !app_assoc.
Qed.

(** One activation only adds calls of the base function and of the hooks to
    the record: it checks no assertion pair. *)
Lemma wrapped_checks_nothing definition config x w :
  checked (calls (snd (functionWithMiddleware definition config x w)))
  = checked (calls w).
Proof.
  destruct w as [s record]. activation.
  repeat match goal with
         | |- context [handleInput config] => destruct (handleInput config); cbn
         | |- context [handleOutput config] => destruct (handleOutput config); cbn
         | |- context [handleError config] => destruct (handleError config); cbn
         | |- context [match ?c with (_, _) => _ end] =>
             lazymatch c with
             | context [match _ with (_, _) => _ end] => fail
             | _ => destruct c as [[?|?] ?]; cbn
             end
         end;
    rewrite !checked_app; cbn; now rewrite !app_nil_r.
Qed.

(** [C2] When no stage throws, the wrapped function returns what the output
    stage makes of the base function's output on the inputs the input stage
    produced; the base function and the output hook both get those
    post-transform inputs, and an absent hook is the identity. *)
Theorem wrapped_composes_stages definition config x x' output output' s0 s1 s2 s3 record :
  inputStage definition config x s0 = (Normal x', s1) ->
  call definition x' s1 = (Normal output, s2) ->
  outputStage definition config output x' s2 = (Normal output', s3) ->
  functionWithMiddleware definition config x (World s0 record)
  = (Normal output',
     World s3 (record ++ inputCalls config x ++ [CallDefinition x']
               ++ outputCalls config output x')).
Proof.
  intros Hin Hbase Hout. activation.
  destruct (handleInput config) as [h|]; cbn in *.
  - rewrite Hin; cbn. rewrite Hbase; cbn.
    destruct (handleOutput config) as [g|]; cbn in *.
    + rewrite Hout; cbn. now rewrite <- !app_assoc.
    + inversion Hout; subst. now rewrite <- !app_assoc.
  - inversion Hin; subst. rewrite Hbase; cbn.
    destruct (handleOutput config) as [g|]; cbn in *.
    + rewrite Hout; cbn. now rewrite <- !app_assoc.
    + inversion Hout; subst. reflexivity.
Qed.

(** [C3] With [handleError] defined, an error thrown by the base function
    makes the wrapped function end as [handleError(definition, error,
    ...inputs)] ends, on the inputs the input stage produced, and
    [handleOutput] is not called. *)
Theorem base_error_recovered_without_output definition config h x x' e s0 s1 s2 record :
  handleError config = Some h ->
  inputStage definition config x s0 = (Normal x', s1) ->
  call definition x' s1 = (Throw e, s2) ->
  functionWithMiddleware definition config x (World s0 record)
  = (fst (h definition e x' s2),
     World (snd (h definition e x' s2))
       (record ++ inputCalls config x ++ [CallDefinition x'; CallError e x']))
  /\ count isCallOutput
       (calls (snd (functionWithMiddleware definition config x (World s0 record))))
     = count isCallOutput record.
Proof.
  intros Hh Hin Hbase.
  erewrite wrapped_catches by (eapply ThrowsInvocation; eassumption).
  rewrite Hh; cbn. rewrite <- !app_assoc; cbn. split; [reflexivity|].
  rewrite !count_app. unfold inputCalls, count.
  destruct (handleInput config); cbn; lia.
Qed.

(** When the decoration returns, what it returns for a present
    configuration is the wrapper. *)
Lemma decoration_returns definition config w0 wrapped w1 :
  createFunctionWithMiddleware definition (Some config) w0 = (Normal wrapped, w1) ->
  wrapped = Fn "functionWithMiddleware" (functionWithMiddleware definition config).
Proof.
  cbn. unfold bind, ret.
  destruct (forEach _ _ w0) as [[[]|failed] w]; [|discriminate].
  now intros [= <- _].
Qed.

(** [C6] Without [handleError], be it that there is no configuration or that
    the configuration lacks the hook, an error thrown by the base function
    comes out of the decorated function as the very same value. *)
Theorem base_error_propagates_unchanged definition (config : option (Config State)) wrapped x x' e s0 s1 s2 record w0 w1 :
  createFunctionWithMiddleware definition config w0 = (Normal wrapped, w1) ->
  handleErrorAbsent config ->
  inputStageOf definition config x s0 = (Normal x', s1) ->
  call definition x' s1 = (Throw e, s2) ->
  fst (call wrapped x (World s0 record)) = Throw e
  /\ store (snd (call wrapped x (World s0 record))) = s2.
Proof.
  destruct config as [config|]; cbn; intros Hwrapped Hh Hin Hbase.
  - rewrite (decoration_returns _ _ _ _ _ Hwrapped); cbn.
    erewrite wrapped_catches by (eapply ThrowsInvocation; eassumption).
    rewrite Hh. now split.
  - injection Hwrapped as <- _. injection Hin as <- <-. cbn.
    unfold direct; cbn. rewrite Hbase. now split.
Qed.

(** [C8] With [handleInput] and [handleError] both defined, an error thrown
    by [handleInput] makes the wrapped function end as
    [handleError(definition, error, ...inputs)] ends on the inputs of the
    call as they were passed, and the base function is not called. *)
Theorem input_hook_error_recovered_on_original_inputs definition config h g x e s0 s1 record :
  handleInput config = Some h ->
  handleError config = Some g ->
  h definition x s0 = (Throw e, s1) ->
  functionWithMiddleware definition config x (World s0 record)
  = (fst (g definition e x s1),
     World (snd (g definition e x s1)) (record ++ [CallInput x; CallError e x]))
  /\ count isCallDefinition
       (calls (snd (functionWithMiddleware definition config x (World s0 record))))
     = count isCallDefinition record.
Proof.
  intros Hh Hg Hthrow.
  erewrite wrapped_catches by (eapply ThrowsInput; eassumption).
  rewrite Hg; cbn. split; [reflexivity|].
  rewrite count_app. unfold count; cbn. lia.
Qed.

(** [C9] When [handleError] itself throws while it handles an error, whatever
    stage that error came from, what it throws comes out of the wrapped
    function; [handleError] was called once and is not called again. *)
Theorem handler_error_propagates definition config h x st e xs e' s0 s1 s2 made record :
  handleError config = Some h ->
  Throws definition config x s0 st e xs s1 made ->
  h definition e xs s1 = (Throw e', s2) ->
  functionWithMiddleware definition config x (World s0 record)
  = (Throw e', World s2 (record ++ made ++ [CallError e xs]))
  /\ count isCallError
       (calls (snd (functionWithMiddleware definition config x (World s0 record))))
     = 1 + count isCallError record.
Proof.
  intros Hh Hthrows Hfail.
  rewrite (wrapped_catches _ _ _ _ _ _ _ _ _ record Hthrows).
  rewrite Hh, Hfail; cbn. split; [reflexivity|].
  destruct (Throws_made _ _ _ _ _ _ _ _ _ Hthrows) as [Hnone _].
  rewrite !count_app, Hnone. unfold count; cbn. lia.
Qed.

(** [C1], as the code has it: an error thrown by [handleInput] or by
    [handleOutput] is caught by the same [try] as an error of the base
    function.  Without [handleError] it comes out of the wrapped function
    unchanged; with [handleError] the hook is called once on it, with the
    inputs as passed when [handleInput] threw and the transformed ones when
    [handleOutput] threw, and the wrapped function ends as that call
    ends. *)
Theorem hook_error_goes_through_catch definition config x st e xs s0 s1 made record :
  Throws definition config x s0 st e xs s1 made ->
  st = InputStage \/ st = OutputStage ->
  (handleError config = None ->
   functionWithMiddleware definition config x (World s0 record)
   = (Throw e, World s1 (record ++ made)))
  /\ (forall h,
       handleError config = Some h ->
       functionWithMiddleware definition config x (World s0 record)
       = (fst (h definition e xs s1),
          World (snd (h definition e xs s1)) (record ++ made ++ [CallError e xs]))
       /\ count isCallError
            (calls (snd (functionWithMiddleware definition config x (World s0 record))))
          = 1 + count isCallError record).
Proof.
  intros Hthrows _.
  rewrite (wrapped_catches _ _ _ _ _ _ _ _ _ record Hthrows).
  destruct (Throws_made _ _ _ _ _ _ _ _ _ Hthrows) as [Hnone _].
  split.
  - intros Hh. now rewrite Hh.
  - intros h Hh. rewrite Hh; cbn. split; [reflexivity|].
    rewrite !count_app, Hnone. unfold count; cbn. lia.
Qed.

(** Once every call of user code is known to be constant, an activation
    computes. *)
Ltac settle :=
  eexists; intros [? ?]; activation;
  repeat match goal with
         | H : _ = _ |- _ => rewrite H; cbn
         | H : forall _, _ = _ |- _ => rewrite H; cbn
         end;
  split; reflexivity.

(** The catch block on the error [e] with the variable [inputs] at [xs]. *)
Ltac settleCatch Herr config e xs :=
  let k := fresh "k" in
  let Hk := fresh "Hk" in
  destruct (handleError config) as [k|] eqn:Hk;
  [ destruct (Herr k e xs eq_refl) as [? ?] | ];
  settle.

(** The try block from the call of the base function on [x']. *)
Ltac settleFromBase Hbase Hout Herr config x' :=
  let g := fresh "g" in
  let Hg := fresh "Hg" in
  let e := fresh "e" in
  let e' := fresh "e" in
  let output := fresh "output" in
  let output' := fresh "output" in
  destruct (Hbase x') as [[output|e] ?];
  [ destruct (handleOutput config) as [g|] eqn:Hg;
    [ destruct (Hout g output x' eq_refl) as [[output'|e'] ?];
      [ settle | settleCatch Herr config e' x' ]
    | settle ]
  | settleCatch Herr config e x' ].

(** A pure base function with pure hooks makes the wrapped function pure:
    what a call ends with depends on the inputs only, and the store is left
    as it was. *)
Lemma wrapped_pure definition config x :
  pureParts definition config ->
  exists result, forall w,
    fst (functionWithMiddleware definition config x w) = result
    /\ store (snd (functionWithMiddleware definition config x w)) = store w.
Proof.
  intros (Hbase & Hin & Hout & Herr).
  destruct (handleInput config) as [h|] eqn:Hh.
  - destruct (Hin h x eq_refl) as [[x'|e] Hr].
    + settleFromBase Hbase Hout Herr config x'.
    + settleCatch Herr config e x.
  - settleFromBase Hbase Hout Herr config x.
Qed.

(** [C7] The wrapped function keeps no state of its own: with a pure base
    function and pure hooks, two calls on equal inputs end the same way in
    whatever worlds they are made, and so whatever calls were made in
    between. *)
Theorem wrapped_keeps_no_state definition config x between w w' :
  pureParts definition config ->
  fst (functionWithMiddleware definition config x w)
  = fst (functionWithMiddleware definition config x w')
  /\ fst (functionWithMiddleware definition config x
            (callAll (functionWithMiddleware definition config) between
               (snd (functionWithMiddleware definition config x w))))
     = fst (functionWithMiddleware definition config x w).
Proof.
  intros Hpure. destruct (wrapped_pure definition config x Hpure) as [r Hr].
  split.
  - destruct (Hr w) as [-> _]. now destruct (Hr w') as [-> _].
  - destruct (Hr w) as [-> _].
    now destruct (Hr (callAll (functionWithMiddleware definition config) between
                        (snd (functionWithMiddleware definition config x w))))
      as [-> _].
Qed.

(** ** Properties of the decoration call *)

(** [C4] With no configuration, or with an empty one, decoration succeeds,
    does nothing else, and returns a function that on every input ends as
    the base function does (same value returned or same value thrown) and
    leaves the same store. *)
Theorem no_hooks_is_passthrough definition (config : option (Config State)) x w0 s record :
  absentOrEmpty config ->
  exists wrapped,
    createFunctionWithMiddleware definition config w0 = (Normal wrapped, w0)
    /\ fst (call wrapped x (World s record)) = fst (call definition x s)
    /\ store (snd (call wrapped x (World s record))) = snd (call definition x s).
Proof.
  destruct config as [config|]; cbn.
  - intros (Hpairs & Herr & Hin & Hout).
    exists (Fn "functionWithMiddleware" (functionWithMiddleware definition config)).
    split.
    + unfold bind, ret. now destruct Hpairs as [-> | ->].
    + cbn. activation. rewrite Hin, Hout, Herr; cbn.
      now destruct (call definition x s) as [[output|e] s'].
  - intros _. eexists. split; [reflexivity|]. cbn. unfold direct; cbn.
    now destruct (call definition x s) as [[output|e] s'].
Qed.

(** The pairs that pass are gone through, and the loop goes on with the
    rest from the world they leave. *)
Lemma forEach_passes definition config pairs rest w0 w1 :
  AllPass (functionWithMiddleware definition config) pairs w0 w1 ->
  forEach (checkAssertion definition config) (pairs ++ rest) w0
  = forEach (checkAssertion definition config) rest w1.
Proof.
  induction 1 as [w | inputs output pairs actualOutput w w1 w2 Hcall Heq _ IH];
    [reflexivity|].
  cbn. unfold bind at 1. unfold checkAssertion at 1.
  unfold bind, propagate, note, strictNotEquals; cbn.
  rewrite Hcall, Heq; cbn. exact IH.
Qed.

Lemma AllPass_checked definition config pairs w0 w1 :
  AllPass (functionWithMiddleware definition config) pairs w0 w1 ->
  checked (calls w1) = checked (calls w0) ++ map fst pairs.
Proof.
  induction 1 as [w | inputs output pairs actualOutput w w1 w2 Hcall Heq _ IH];
    cbn; [now rewrite app_nil_r|].
  rewrite IH. apply (f_equal (fun r => checked (calls (snd r)))) in Hcall.
  cbv beta in Hcall. rewrite wrapped_checks_nothing in Hcall; cbn in Hcall.
  rewrite <- Hcall, checked_app; cbn. now rewrite <- app_assoc.
Qed.

(** [C5] The assertion pairs are checked in order on the wrapped function
    that was just built.  When all of them give a strictly equal value the
    wrapped function is returned, and calling it checks no pair again.  At
    the first pair that gives another value the decoration throws the
    mismatch error; the pairs after it are not checked and no function is
    returned.  The message of the error names the base function, the
    inputs of the pair as written, the expected value and the actual one;
    its text is stated for the values the model prints as JavaScript does
    ([safeValue]: every number in it is a safe integer). *)
Theorem assertions_checked_at_decoration definition config pairs w0 w1 :
  AllPass (functionWithMiddleware definition config) pairs w0 w1 ->
  (assertions config = Some pairs ->
   createFunctionWithMiddleware definition (Some config) w0
   = (Normal (Fn "functionWithMiddleware"
                (functionWithMiddleware definition config)), w1)
   /\ checked (calls w1) = checked (calls w0) ++ map fst pairs)
  /\ (forall x w,
       checked (calls (snd (functionWithMiddleware definition config x w)))
       = checked (calls w))
  /\ (forall inputs output rest actualOutput w2,
       assertions config = Some (pairs ++ (inputs, output) :: rest) ->
       functionWithMiddleware definition config inputs
         (World (store w1) (calls w1 ++ [CallWrapped inputs]))
       = (Normal actualOutput, w2) ->
       strictEquals actualOutput output = false ->
       exists message,
         createFunctionWithMiddleware definition (Some config) w0
         = (Throw (AssertionFailure message), w2)
         /\ checked (calls w2) = checked (calls w0) ++ map fst pairs ++ [inputs]
         /\ (forallb safeValue (output :: actualOutput :: inputs) = true ->
             message
             = ("Expected " ++ name definition ++ "("
                ++ join ", " inputs ++ ") to return " ++ toString output
                ++ ", but got " ++ toString actualOutput ++ ".")%string)).
Proof.
  intros Hpass. split; [|split].
  - intros Hpairs. split; [|exact (AllPass_checked _ _ _ _ _ Hpass)].
    cbn. rewrite Hpairs. unfold bind at 1.
    rewrite <- (app_nil_r pairs), (forEach_passes _ _ _ _ _ _ Hpass).
    reflexivity.
  - intros x w. apply wrapped_checks_nothing.
  - intros inputs output rest actualOutput w2 Hpairs Hcall Hneq.
    exists (mismatchMessage definition inputs output actualOutput).
    split; [|split; [|intros _; reflexivity]].
    + cbn. rewrite Hpairs. unfold bind at 1.
      rewrite (forEach_passes _ _ _ _ _ _ Hpass). cbn.
      unfold bind at 1. unfold checkAssertion at 1.
      unfold bind, propagate, note, strictNotEquals; cbn.
      now rewrite Hcall, Hneq.
    + apply (f_equal (fun r => checked (calls (snd r)))) in Hcall.
      cbv beta in Hcall. rewrite wrapped_checks_nothing in Hcall; cbn in Hcall.
      rewrite <- Hcall, checked_app, (AllPass_checked _ _ _ _ _ Hpass); cbn.
      now rewrite <- app_assoc.
Qed.

(** [C10] When the wrapped function throws while an assertion pair is
    checked, the decoration throws that very error: no mismatch error is
    made, the pairs after it are not checked and no function is
    returned. *)
Theorem assertion_call_error_propagates definition config pairs inputs output rest e w0 w1 w2 :
  assertions config = Some (pairs ++ (inputs, output) :: rest) ->
  AllPass (functionWithMiddleware definition config) pairs w0 w1 ->
  functionWithMiddleware definition config inputs
    (World (store w1) (calls w1 ++ [CallWrapped inputs]))
  = (Throw e, w2) ->
  createFunctionWithMiddleware definition (Some config) w0
  = (Throw (Uncaught e), w2)
  /\ checked (calls w2) = checked (calls w0) ++ map fst pairs ++ [inputs].
Proof.
  intros Hpairs Hpass Hcall. split.
  - cbn. rewrite Hpairs. unfold bind at 1.
    rewrite (forEach_passes _ _ _ _ _ _ Hpass). cbn.
    unfold bind at 1. unfold checkAssertion at 1.
    unfold bind, propagate, note; cbn.
    now rewrite Hcall.
  - apply (f_equal (fun r => checked (calls (snd r)))) in Hcall.
    cbv beta in Hcall. rewrite wrapped_checks_nothing in Hcall; cbn in Hcall.
    rewrite <- Hcall, checked_app, (AllPass_checked _ _ _ _ _ Hpass); cbn.
    now rewrite <- app_assoc.
Qed.

(** ** Further properties of the wrapped function *)

(** An activation in which no stage throws. *)
Lemma wrapped_completes definition config x x' output output' s0 s1 s2 s3 record :
  inputStage definition config x s0 = (Normal x', s1) ->
  call definition x' s1 = (Normal output, s2) ->
  outputStage definition config output x' s2 = (Normal output', s3) ->
  functionWithMiddleware definition config x (World s0 record)
  = (Normal output',
     World s3 (record ++ inputCalls config x ++ [CallDefinition x']
               ++ outputCalls config output x')).
Proof.
  intros Hin Hbase Hout. activation.
  destruct (handleInput config) as [h|]; cbn in *;
    [rewrite Hin | injection Hin as <- <-]; cbn; rewrite Hbase; cbn;
    (destruct (handleOutput config) as [g|]; cbn in *;
     [rewrite Hout | injection Hout as <- <-]);
    cbn; now rewrite <- ?app_assoc.
Qed.

(** The stages either all return or one of them is the first to throw. *)
Lemma wrapped_stages definition config x s0 :
  (exists x' s1 output s2 output' s3,
      inputStage definition config x s0 = (Normal x', s1)
      /\ call definition x' s1 = (Normal output, s2)
      /\ outputStage definition config output x' s2 = (Normal output', s3))
  \/ (exists st e xs s made, Throws definition config x s0 st e xs s made).
Proof.
  destruct (inputStage definition config x s0) as [[x'|e] s1] eqn:Hin.
  - destruct (call definition x' s1) as [[output|e] s2] eqn:Hbase.
    + destruct (outputStage definition config output x' s2)
        as [[output'|e] s3] eqn:Hout.
      * left. exists x', s1, output, s2, output', s3.
        repeat split; solve [reflexivity | assumption].
      * right. unfold outputStage in Hout.
        destruct (handleOutput config) as [h|] eqn:Hh; [|discriminate Hout].
        do 5 eexists. eapply ThrowsOutput; eassumption.
    + right. do 5 eexists. eapply ThrowsInvocation; eassumption.
  - right. unfold inputStage in Hin.
    destruct (handleInput config) as [h|] eqn:Hh; [|discriminate Hin].
    do 5 eexists. eapply ThrowsInput; eassumption.
Qed.

(** [X1] With a [handleError] that returns on every error, the wrapped
    function never throws, whatever the base function and the other hooks
    do. *)
Theorem recovering_handler_never_throws definition config h x w :
  handleError config = Some h ->
  recoversAlways definition h ->
  exists output w', functionWithMiddleware definition config x w = (Normal output, w').
Proof.
  intros Hh Hrecovers. destruct w as [s0 record].
  destruct (wrapped_stages definition config x s0)
    as [(x' & s1 & output & s2 & output' & s3 & Hin & Hbase & Hout)
       | (st & e & xs & s & made & Hthrows)].
  - rewrite (wrapped_completes _ _ _ _ _ _ _ _ _ _ record Hin Hbase Hout).
    eauto.
  - rewrite (wrapped_catches _ _ _ _ _ _ _ _ _ record Hthrows), Hh.
    destruct (Hrecovers e xs s) as (output & s' & ->). cbn. eauto.
Qed.

(** [X2] The wrapped function throws only what user code threw: when a call
    throws, some stage threw first, and either there is no [handleError] and
    the call throws that very error, or [handleError] was given that error
    and threw what the call throws. *)
Theorem wrapped_throws_only_user_errors definition config x s0 record e' w' :
  functionWithMiddleware definition config x (World s0 record) = (Throw e', w') ->
  exists st e xs s made,
    Throws definition config x s0 st e xs s made
    /\ ((handleError config = None /\ e' = e /\ w' = World s (record ++ made))
        \/ (exists h,
              handleError config = Some h
              /\ h definition e xs s = (Throw e', store w')
              /\ calls w' = record ++ made ++ [CallError e xs])).
Proof.
  intros Hcall.
  destruct (wrapped_stages definition config x s0)
    as [(x' & s1 & output & s2 & output' & s3 & Hin & Hbase & Hout)
       | (st & e & xs & s & made & Hthrows)].
  - rewrite (wrapped_completes _ _ _ _ _ _ _ _ _ _ record Hin Hbase Hout) in Hcall.
    discriminate Hcall.
  - exists st, e, xs, s, made. split; [exact Hthrows|].
    rewrite (wrapped_catches _ _ _ _ _ _ _ _ _ record Hthrows) in Hcall.
    destruct (handleError config) as [h|].
    + right. exists h. split; [reflexivity|].
      destruct (h definition e xs s) as [result s']; cbn in Hcall.
      injection Hcall as -> <-. now split.
    + left. injection Hcall as <- <-. now repeat split.
Qed.

(** [X3] One call of the wrapped function only adds to the record of calls,
    and adds at most four: [handleInput] exactly once when it is defined,
    the base function, [handleOutput] and [handleError] at most once each.
    Nothing is retried. *)
Theorem each_callee_called_at_most_once definition config x w :
  exists made,
    calls (snd (functionWithMiddleware definition config x w)) = calls w ++ made
    /\ count isCallInput made
       = match handleInput config with Some _ => 1 | None => 0 end
    /\ count isCallDefinition made <= 1
    /\ count isCallOutput made <= 1
    /\ count isCallError made <= 1
    /\ length made <= 4.
Proof.
  destruct w as [s0 record].
  destruct (wrapped_stages definition config x s0)
    as [(x' & s1 & output & s2 & output' & s3 & Hin & Hbase & Hout)
       | (st & e & xs & s & made & Hthrows)].
  - rewrite (wrapped_completes _ _ _ _ _ _ _ _ _ _ record Hin Hbase Hout).
    eexists. split; [reflexivity|].
    unfold count, inputCalls, outputCalls.
    destruct (handleInput config), (handleOutput config); cbn;
      repeat split; lia.
  - rewrite (wrapped_catches _ _ _ _ _ _ _ _ _ record Hthrows).
    destruct Hthrows as [h e s1 Hh Hthrow
                        | x' s1 e s2 Hin Hbase
                        | h x' s1 output s2 e s3 Hh Hin Hbase Hout];
      unfold count, inputCalls;
      destruct (handleInput config), (handleError config);
      try discriminate; cbn;
      eexists; (split; [reflexivity|]); cbn; repeat split; lia.
Qed.

(** What a stage leaves of a property of the store. *)
Lemma inputStage_keeps P definition config x :
  partsKeep P definition config -> keeps P (inputStage definition config x).
Proof.
  intros (_ & Hin & _). unfold inputStage.
  destruct (handleInput config) as [h|]; [now apply Hin|].
  intros s Hs. exact Hs.
Qed.

Lemma outputStage_keeps P definition config output x :
  partsKeep P definition config ->
  keeps P (outputStage definition config output x).
Proof.
  intros (_ & _ & Hout & _). unfold outputStage.
  destruct (handleOutput config) as [h|]; [now apply Hout|].
  intros s Hs. exact Hs.
Qed.

Lemma Throws_keeps P definition config x s0 st e xs s made :
  partsKeep P definition config ->
  P s0 ->
  Throws definition config x s0 st e xs s made ->
  P s.
Proof.
  intros Hparts Hs0 Hthrows.
  pose proof (inputStage_keeps P definition config x Hparts s0 Hs0) as Hin.
  destruct Hparts as (Hbase & Hi & Hout & _).
  destruct Hthrows as [h e s1 Hh Hthrow
                      | x' s1 e s2 Hin' Hcall
                      | h x' s1 output s2 e s3 Hh Hin' Hcall Hthrow].
  - generalize (Hi h x Hh s0 Hs0). now rewrite Hthrow.
  - rewrite Hin' in Hin. generalize (Hbase x' s1 Hin). now rewrite Hcall.
  - rewrite Hin' in Hin. generalize (Hbase x' s1 Hin). rewrite Hcall.
    intros Hs2. generalize (Hout h output x' Hh s2 Hs2). now rewrite Hthrow.
Qed.

Lemma wrapped_keeps P definition config x w :
  partsKeep P definition config ->
  P (store w) ->
  P (store (snd (functionWithMiddleware definition config x w))).
Proof.
  intros Hparts Hw. destruct w as [s0 record]; cbn in Hw.
  destruct (wrapped_stages definition config x s0)
    as [(x' & s1 & output & s2 & output' & s3 & Hin & Hbase & Hout)
       | (st & e & xs & s & made & Hthrows)].
  - rewrite (wrapped_completes _ _ _ _ _ _ _ _ _ _ record Hin Hbase Hout); cbn.
    generalize (inputStage_keeps P definition config x Hparts s0 Hw).
    rewrite Hin. intros Hs1.
    generalize (proj1 Hparts x' s1 Hs1). rewrite Hbase. intros Hs2.
    generalize (outputStage_keeps P definition config output x' Hparts s2 Hs2).
    now rewrite Hout.
  - rewrite (wrapped_catches _ _ _ _ _ _ _ _ _ record Hthrows).
    pose proof (Throws_keeps P _ _ _ _ _ _ _ _ _ Hparts Hw Hthrows) as Hs.
    destruct Hparts as (_ & _ & _ & Herr).
    destruct (handleError config) as [h|]; cbn; [|exact Hs].
    now apply Herr.
Qed.

(** One turn of the loop over the assertion pairs. *)
Lemma forEach_step definition config inputs output rest w :
  forEach (checkAssertion definition config) ((inputs, output) :: rest) w
  = match functionWithMiddleware definition config inputs
            (World (store w) (calls w ++ [CallWrapped inputs])) with
    | (Normal actualOutput, w1) =>
        if strictEquals actualOutput output
        then forEach (checkAssertion definition config) rest w1
        else (Throw (AssertionFailure
                       (mismatchMessage definition inputs output actualOutput)),
              w1)
    | (Throw e, w1) => (Throw (Uncaught e), w1)
    end.
Proof.
  cbn. unfold bind at 1. unfold checkAssertion at 1.
  unfold bind, propagate, note, strictNotEquals; cbn.
  destruct (functionWithMiddleware definition config inputs _)
    as [[actualOutput|e] w1]; cbn; [|reflexivity].
  now destruct (strictEquals actualOutput output).
Qed.

Lemma forEach_keeps P definition config pairs w :
  partsKeep P definition config ->
  P (store w) ->
  P (store (snd (forEach (checkAssertion definition config) pairs w))).
Proof.
  intros Hparts. revert w.
  induction pairs as [|[inputs output] rest IH]; intros w Hw; [exact Hw|].
  rewrite forEach_step.
  pose proof (wrapped_keeps P definition config inputs
                (World (store w) (calls w ++ [CallWrapped inputs])) Hparts Hw)
    as Hw1.
  destruct (functionWithMiddleware definition config inputs _)
    as [[actualOutput|e] w1]; cbn in *; [|exact Hw1].
  destruct (strictEquals actualOutput output); cbn; [|exact Hw1].
  now apply IH.
Qed.

(** [X4] The decorator has no effect of its own on the store: a property of
    the store that the base function and the hooks keep, however they end,
    is kept by every call of the wrapped function and by the decoration
    call with its assertion checks. *)
Theorem user_invariant_kept P definition config x w :
  partsKeep P definition config ->
  P (store w) ->
  P (store (snd (functionWithMiddleware definition config x w)))
  /\ P (store (snd (createFunctionWithMiddleware definition (Some config) w))).
Proof.
  intros Hparts Hw. split; [now apply wrapped_keeps|].
  cbn. unfold bind, ret.
  pose proof (forEach_keeps P definition config
                (match assertions config with Some l => l | None => [] end)
                w Hparts Hw) as Hloop.
  now destruct (forEach _ _ w) as [[[]|failed] w1].
Qed.

(** [X5] Hooks that only pass on what they get make the wrapped function end
    as the base function does, on the same store: with inputs returned as
    given, outputs returned as given and errors thrown again, a call
    returns or throws what the base function returns or throws. *)
Theorem transparent_hooks_are_passthrough definition config x s record :
  transparentHooks definition config ->
  fst (functionWithMiddleware definition config x (World s record))
  = fst (call definition x s)
  /\ store (snd (functionWithMiddleware definition config x (World s record)))
     = snd (call definition x s).
Proof.
  intros (Hin & Hout & Herr). activation.
  destruct (handleInput config) as [h|]; cbn;
    [rewrite (Hin h x s eq_refl); cbn|];
    (destruct (call definition x s) as [[output|e] s1]; cbn;
     [ destruct (handleOutput config) as [g|]; cbn;
       [rewrite (Hout g output x s1 eq_refl); cbn|]
     | destruct (handleError config) as [k|]; cbn;
       [rewrite (Herr k e x s1 eq_refl); cbn|] ]);
    now split.
Qed.

(** ** Further properties of the decoration call *)

(** The loop over the pairs ends in one of three ways. *)
Lemma forEach_outcomes definition config pairs w0 :
  (exists w1,
      AllPass (functionWithMiddleware definition config) pairs w0 w1
      /\ forEach (checkAssertion definition config) pairs w0 = (Normal tt, w1))
  \/ (exists before inputs output after w1 w2,
        pairs = before ++ (inputs, output) :: after
        /\ AllPass (functionWithMiddleware definition config) before w0 w1
        /\ ((exists actualOutput,
                functionWithMiddleware definition config inputs
                  (World (store w1) (calls w1 ++ [CallWrapped inputs]))
                = (Normal actualOutput, w2)
                /\ strictEquals actualOutput output = false
                /\ forEach (checkAssertion definition config) pairs w0
                   = (Throw (AssertionFailure
                               (mismatchMessage definition inputs output
                                  actualOutput)), w2))
            \/ (exists e,
                  functionWithMiddleware definition config inputs
                    (World (store w1) (calls w1 ++ [CallWrapped inputs]))
                  = (Throw e, w2)
                  /\ forEach (checkAssertion definition config) pairs w0
                     = (Throw (Uncaught e), w2)))).
Proof.
  revert w0. induction pairs as [|[inputs output] rest IH]; intros w0.
  - left. exists w0. split; [constructor | reflexivity].
  - rewrite forEach_step.
    destruct (functionWithMiddleware definition config inputs
                (World (store w0) (calls w0 ++ [CallWrapped inputs])))
      as [[actualOutput|e] w1] eqn:Hcall.
    + destruct (strictEquals actualOutput output) eqn:Heq.
      * destruct (IH w1)
          as [(w2 & Hpass & Hloop)
             | (before & inputs' & output' & after & w2 & w3 & -> & Hpass & Hend)].
        -- left. exists w2. split; [|exact Hloop].
           eapply AllPassCons; eassumption.
        -- right.
           exists ((inputs, output) :: before), inputs', output', after, w2, w3.
           split; [reflexivity|]. split; [|exact Hend].
           eapply AllPassCons; eassumption.
      * right. exists [], inputs, output, rest, w0, w1.
        split; [reflexivity|]. split; [constructor|].
        left. exists actualOutput. now repeat split.
    + right. exists [], inputs, output, rest, w0, w1.
      split; [reflexivity|]. split; [constructor|].
      right. exists e. now split.
Qed.

(** Every pair that passed had an actual value strictly equal to the
    expected one. *)
Lemma AllPass_matches definition config pairs w0 w1 inputs output :
  AllPass (functionWithMiddleware definition config) pairs w0 w1 ->
  In (inputs, output) pairs ->
  exists actualOutput, strictEquals actualOutput output = true.
Proof.
  induction 1 as [w | inputs' output' rest actualOutput w w1 w2 _ Heq _ IH];
    intros Hin; [destruct Hin|].
  destruct Hin as [[= <- <-] | Hin]; [now exists actualOutput | now apply IH].
Qed.

Lemma strictEquals_NaN a : strictEquals a NaN = false.
Proof. now destruct a. Qed.

(** [X6] On the values of the model, whose conversion to a string returns,
    the decoration call with a configuration always ends, and in one of
    three ways: every pair passes and the wrapper is returned; or some pair,
    after pairs that all pass, gets another value than expected and a
    mismatch error is thrown; or at some pair, after pairs that all pass,
    the wrapped function throws and that error is thrown.  Nothing is said
    here of the text of the mismatch error. *)
Theorem decoration_outcomes definition config w0 :
  (exists w1,
      AllPass (functionWithMiddleware definition config) (pairsOf config) w0 w1
      /\ createFunctionWithMiddleware definition (Some config) w0
         = (Normal (Fn "functionWithMiddleware"
                      (functionWithMiddleware definition config)), w1))
  \/ (exists before inputs output after w1 w2,
        pairsOf config = before ++ (inputs, output) :: after
        /\ AllPass (functionWithMiddleware definition config) before w0 w1
        /\ ((exists actualOutput,
                functionWithMiddleware definition config inputs
                  (World (store w1) (calls w1 ++ [CallWrapped inputs]))
                = (Normal actualOutput, w2)
                /\ strictEquals actualOutput output = false
                /\ exists message,
                     createFunctionWithMiddleware definition (Some config) w0
                     = (Throw (AssertionFailure message), w2))
            \/ (exists e,
                  functionWithMiddleware definition config inputs
                    (World (store w1) (calls w1 ++ [CallWrapped inputs]))
                  = (Throw e, w2)
                  /\ createFunctionWithMiddleware definition (Some config) w0
                     = (Throw (Uncaught e), w2)))).
Proof.
  destruct (forEach_outcomes definition config (pairsOf config) w0)
    as [(w1 & Hpass & Hloop)
       | (before & inputs & output & after & w1 & w2 & Hsplit & Hpass
          & [(actualOutput & Hcall & Hneq & Hloop) | (e & Hcall & Hloop)])].
  - left. exists w1. split; [exact Hpass|].
    cbn. unfold bind at 1. fold (pairsOf config). now rewrite Hloop.
  - right. exists before, inputs, output, after, w1, w2.
    split; [exact Hsplit|]. split; [exact Hpass|].
    left. exists actualOutput. split; [exact Hcall|]. split; [exact Hneq|].
    exists (mismatchMessage definition inputs output actualOutput).
    cbn. unfold bind at 1. fold (pairsOf config). now rewrite Hloop.
  - right. exists before, inputs, output, after, w1, w2.
    split; [exact Hsplit|]. split; [exact Hpass|].
    right. exists e. split; [exact Hcall|].
    cbn. unfold bind at 1. fold (pairsOf config). now rewrite Hloop.
Qed.

(** [X7] An assertion pair that expects NaN can never pass, since
    [NaN !== NaN]: a configuration with such a pair makes every decoration
    call throw, whatever the base function and the hooks do. *)
Theorem nan_expectation_fails_decoration definition config inputs w0 :
  In (inputs, NaN) (pairsOf config) ->
  exists failed w,
    createFunctionWithMiddleware definition (Some config) w0 = (Throw failed, w).
Proof.
  intros Hin. cbn. unfold bind at 1. fold (pairsOf config).
  destruct (forEach_outcomes definition config (pairsOf config) w0)
    as [(w1 & Hpass & _)
       | (before & inputs' & output & after & w1 & w2 & _ & _
          & [(actualOutput & _ & _ & ->) | (e & _ & ->)])].
  - destruct (AllPass_matches _ _ _ _ _ _ _ Hpass Hin) as [actualOutput Heq].
    now rewrite strictEquals_NaN in Heq.
  - eauto.
  - eauto.
Qed.

(** [X8] The mismatch message prints both values as strings, so it does not
    tell a safe integer from its decimal string: when the wrapped function
    returns the safe integer [n] where the string of [n] is expected, the
    pair fails and the message shows the same text for the expected and for
    the actual value.  The inputs, which the message prints too, are
    values the model prints as JavaScript does. *)
Theorem mismatch_message_hides_types definition config before inputs n after w0 w1 w2 :
  isSafeInteger n = true ->
  forallb safeValue inputs = true ->
  pairsOf config = before ++ (inputs, Str (stringOfZ n)) :: after ->
  AllPass (functionWithMiddleware definition config) before w0 w1 ->
  functionWithMiddleware definition config inputs
    (World (store w1) (calls w1 ++ [CallWrapped inputs]))
  = (Normal (Num n), w2) ->
  createFunctionWithMiddleware definition (Some config) w0
  = (Throw (AssertionFailure
              ("Expected " ++ name definition ++ "(" ++ join ", " inputs
               ++ ") to return " ++ stringOfZ n
               ++ ", but got " ++ stringOfZ n ++ ".")), w2).
Proof.
  intros _ _ Hpairs Hpass Hcall.
  cbn. unfold bind at 1. fold (pairsOf config).
  rewrite Hpairs, (forEach_passes _ _ _ _ _ _ Hpass), forEach_step, Hcall.
  reflexivity.
Qed.

(** [X11] [handleInput] is a gate in front of the base function: in one call
    of the wrapped function the base function is called exactly once when
    the input stage returns, and not at all when [handleInput] throws,
    whether or not there is a [handleError]. *)
Theorem base_called_iff_inputs_accepted definition config x s0 record :
  count isCallDefinition
    (calls (snd (functionWithMiddleware definition config x (World s0 record))))
  = count isCallDefinition record
    + match fst (inputStage definition config x s0) with
      | Normal _ => 1
      | Throw _ => 0
      end.
Proof.
  destruct (wrapped_stages definition config x s0)
    as [(x' & s1 & output & s2 & output' & s3 & Hin & Hbase & Hout)
       | (st & e & xs & s & made & Hthrows)].
  - rewrite (wrapped_completes _ _ _ _ _ _ _ _ _ _ record Hin Hbase Hout), Hin.
    cbn [snd fst calls]. rewrite !count_app.
    unfold count, inputCalls, outputCalls.
    destruct (handleInput config), (handleOutput config); cbn; lia.
  - rewrite (wrapped_catches _ _ _ _ _ _ _ _ _ record Hthrows).
    destruct Hthrows as [h e s1 Hh Hthrow
                        | x' s1 e s2 Hin Hbase
                        | h x' s1 output s2 e s3 Hh Hin Hbase Hout].
    + unfold inputStage. rewrite Hh, Hthrow.
      destruct (handleError config); cbn [snd fst calls];
        rewrite !count_app; unfold count; cbn; lia.
    + rewrite Hin.
      destruct (handleError config); cbn [snd fst calls];
        rewrite !count_app; unfold count, inputCalls;
        destruct (handleInput config); cbn; lia.
    + rewrite Hin.
      destruct (handleError config); cbn [snd fst calls];
        rewrite !count_app; unfold count, inputCalls;
        destruct (handleInput config); cbn; lia.
Qed.

End Properties.

(** ** Decorating a decorated function *)

Section Nested.

Context {State : Type}.
Implicit Types (definition : F State) (inner : Config State).

(** [X9] Two layers compose like an onion.  When nothing throws, the outer
    [handleInput] runs first, then the inner one, then the base function,
    then the inner [handleOutput], then the outer one; the outer
    [handleOutput] gets the inputs the outer [handleInput] produced, not the
    ones the inner layer made of them. *)
Theorem nested_layers_compose definition inner (outer : Config (world State)) x x1 x2 output output1 output2 s0 s1 s2 s3 s4 record1 record1' w5 record2 :
  inputStage (wrapperOf definition inner) outer x (World s0 record1)
  = (Normal x1, World s1 record1') ->
  inputStage definition inner x1 s1 = (Normal x2, s2) ->
  call definition x2 s2 = (Normal output, s3) ->
  outputStage definition inner output x2 s3 = (Normal output1, s4) ->
  outputStage (wrapperOf definition inner) outer output1 x1
    (World s4 (record1' ++ inputCalls inner x1 ++ [CallDefinition x2]
               ++ outputCalls inner output x2))
  = (Normal output2, w5) ->
  functionWithMiddleware (wrapperOf definition inner) outer x
    (World (World s0 record1) record2)
  = (Normal output2,
     World w5 (record2 ++ inputCalls outer x ++ [CallDefinition x1]
               ++ outputCalls outer output1 x1)).
Proof.
  intros Houter Hinner Hbase Hinner' Houter'.
  eapply wrapped_completes; [exact Houter | | exact Houter'].
  cbn. eapply wrapped_completes; eassumption.
Qed.

(** [X10] An error of the base function that the inner layer does not
    handle is handled by the outer layer: the outer [handleError] gets that
    very error, the inner wrapper as its [definition] and the inputs of the
    outer layer, and the call ends as it ends. *)
Theorem inner_error_reaches_outer_handler definition inner (outer : Config (world State)) h x x1 x2 e s0 s1 s2 s3 record1 record1' record2 :
  handleError inner = None ->
  handleError outer = Some h ->
  inputStage (wrapperOf definition inner) outer x (World s0 record1)
  = (Normal x1, World s1 record1') ->
  inputStage definition inner x1 s1 = (Normal x2, s2) ->
  call definition x2 s2 = (Throw e, s3) ->
  functionWithMiddleware (wrapperOf definition inner) outer x
    (World (World s0 record1) record2)
  = (fst (h (wrapperOf definition inner) e x1
            (World s3 (record1' ++ inputCalls inner x1 ++ [CallDefinition x2]))),
     World (snd (h (wrapperOf definition inner) e x1
                   (World s3 (record1' ++ inputCalls inner x1
                              ++ [CallDefinition x2]))))
       (record2 ++ inputCalls outer x ++ [CallDefinition x1; CallError e x1])).
Proof.
  intros Hinner Houter Hin Hin' Hbase.
  assert (Hcall : call (wrapperOf definition inner) x1 (World s1 record1')
                  = (Throw e,
                     World s3 (record1' ++ inputCalls inner x1
                               ++ [CallDefinition x2]))).
  { cbn. erewrite wrapped_catches by (eapply ThrowsInvocation; eassumption).
    now rewrite Hinner. }
  rewrite (wrapped_catches _ _ _ _ _ _ _ _ _ record2
             (ThrowsInvocation _ _ _ _ _ _ _ _ _ Hin Hcall)).
  rewrite Houter. now rewrite <- !app_assoc.
Qed.

End Nested.

(** ** The test file, replayed on the model *)

Module TestFile.
Import Examples.

Local Open Scope Z_scope.

(** "should return the original function when no config is provided" *)
Example returns_original_function :
  exists resultFunc,
    createFunctionWithMiddleware testFunction None world0
    = (Normal resultFunc, world0)
    /\ name resultFunc = "testFunction"%string
    /\ call resultFunc [Num 1; Num 2] world0 = (Normal (Num 3), world0).
Proof. eexists. repeat split. Qed.

(** "should handle error correctly" *)
Example handles_error :
  functionWithMiddleware faultyFunc (config None (Some errorHandled) None None)
    [] world0
  = (Normal (Str "error handled"),
     World {| console := []; nextRef := 2 |}
       [CallDefinition []; CallError (Err 1 "test error") []]).
Proof. reflexivity. Qed.

(** "should assert correctly", before [assertions[1][1] = 8] ... *)
Example assertions_pass :
  createFunctionWithMiddleware testFunction
    (Some (config (Some passingPairs) None None None)) world0
  = (Normal (Fn "functionWithMiddleware"
               (functionWithMiddleware testFunction
                  (config (Some passingPairs) None None None))),
     World env0
       [CallWrapped [Num 1; Num 2]; CallDefinition [Num 1; Num 2];
        CallWrapped [Num 3; Num 4]; CallDefinition [Num 3; Num 4]]).
Proof. reflexivity. Qed.

(** ... and after it. *)
Example assertions_fail :
  fst (createFunctionWithMiddleware testFunction
         (Some (config (Some failingPairs) None None None)) world0)
  = Throw (AssertionFailure
             "Expected testFunction(3, 4) to return 8, but got 7.").
Proof. reflexivity. Qed.

(** How the message prints values that are not positive numbers. *)
Example mismatch_message_values :
  mismatchMessage testFunction [Num (-3); Null; Str "a"; Undefined; Bool true]
    NaN (Err 1 "boom")
  = "Expected testFunction(-3, , a, , true) to return NaN, but got Error: boom."%string.
Proof. reflexivity. Qed.

End TestFile.

(** ** The properties on the functions of the test file *)

Module Witnesses.
Import Examples.

Local Open Scope Z_scope.

(** [validateInput] lets (2, 3) through, [testFunction] adds them and
    [logOutput] prints the sum. *)
Lemma wrapped_composes_stages_witness :
  (inputStage testFunction
     (config None (Some errorHandled) (Some validateInput) (Some logOutput))
     [Num 2; Num 3] env0 = (Normal [Num 2; Num 3], env0)
   /\ call testFunction [Num 2; Num 3] env0 = (Normal (Num 5), env0)
   /\ outputStage testFunction
        (config None (Some errorHandled) (Some validateInput) (Some logOutput))
        (Num 5) [Num 2; Num 3] env0
      = (Normal (Num 5),
         {| console := ["Adding 2 and 3 yields 5"%string]; nextRef := 1 |}))
  /\ functionWithMiddleware testFunction
       (config None (Some errorHandled) (Some validateInput) (Some logOutput))
       [Num 2; Num 3] world0
     = (Normal (Num 5),
        World {| console := ["Adding 2 and 3 yields 5"%string]; nextRef := 1 |}
          [CallInput [Num 2; Num 3]; CallDefinition [Num 2; Num 3];
           CallOutput (Num 5) [Num 2; Num 3]]).
Proof.
  split; [repeat split|].
  exact (wrapped_composes_stages testFunction
           (config None (Some errorHandled) (Some validateInput) (Some logOutput))
           [Num 2; Num 3] [Num 2; Num 3] (Num 5) (Num 5) env0 env0 env0
           {| console := ["Adding 2 and 3 yields 5"%string]; nextRef := 1 |} []
           eq_refl eq_refl eq_refl).
Defined.

(** [faultyFunc] throws, [handleError] answers, [logOutput] prints
    nothing. *)
Lemma base_error_recovered_without_output_witness :
  (handleError (config None (Some errorHandled) None (Some logOutput))
   = Some errorHandled
   /\ inputStage faultyFunc (config None (Some errorHandled) None (Some logOutput))
        [] env0 = (Normal [], env0)
   /\ call faultyFunc [] env0
      = (Throw (Err 1 "test error"), {| console := []; nextRef := 2 |}))
  /\ functionWithMiddleware faultyFunc
       (config None (Some errorHandled) None (Some logOutput)) [] world0
     = (Normal (Str "error handled"),
        World {| console := []; nextRef := 2 |}
          [CallDefinition []; CallError (Err 1 "test error") []])
  /\ count isCallOutput
       (calls (snd (functionWithMiddleware faultyFunc
                      (config None (Some errorHandled) None (Some logOutput))
                      [] world0)))
     = 0%nat.
Proof.
  split; [repeat split|].
  exact (base_error_recovered_without_output faultyFunc
           (config None (Some errorHandled) None (Some logOutput)) errorHandled
           [] [] (Err 1 "test error") env0 env0
           {| console := []; nextRef := 2 |} [] eq_refl eq_refl eq_refl).
Defined.

(** Without [handleError] the error of [faultyFunc] comes out as it is. *)
Lemma base_error_propagates_unchanged_witness :
  (createFunctionWithMiddleware faultyFunc
     (Some (config None None None (Some logOutput))) world0
   = (Normal (Fn "functionWithMiddleware"
                (functionWithMiddleware faultyFunc
                   (config None None None (Some logOutput)))), world0)
   /\ handleErrorAbsent (Some (config None None None (Some logOutput)))
   /\ inputStageOf faultyFunc (Some (config None None None (Some logOutput)))
        [] env0
      = (Normal [], env0)
   /\ call faultyFunc [] env0
      = (Throw (Err 1 "test error"), {| console := []; nextRef := 2 |}))
  /\ fst (functionWithMiddleware faultyFunc
            (config None None None (Some logOutput)) [] world0)
     = Throw (Err 1 "test error")
  /\ store (snd (functionWithMiddleware faultyFunc
                   (config None None None (Some logOutput)) [] world0))
     = {| console := []; nextRef := 2 |}.
Proof.
  split; [repeat split|].
  exact (base_error_propagates_unchanged faultyFunc
           (Some (config None None None (Some logOutput)))
           (Fn "functionWithMiddleware"
              (functionWithMiddleware faultyFunc
                 (config None None None (Some logOutput))))
           [] [] (Err 1 "test error")
           env0 env0 {| console := []; nextRef := 2 |} [] world0 world0
           eq_refl eq_refl eq_refl eq_refl).
Defined.

(** [validateInput] rejects ("1", 2); [handleError] gets ("1", 2) and
    [testFunction] is not called. *)
Lemma input_hook_error_recovered_on_original_inputs_witness :
  (handleInput (config None (Some errorHandled) (Some validateInput) None)
   = Some validateInput
   /\ handleError (config None (Some errorHandled) (Some validateInput) None)
      = Some errorHandled
   /\ validateInput testFunction [Str "1"; Num 2] env0
      = (Throw (Err 1 "Inputs must be numbers"),
         {| console := []; nextRef := 2 |}))
  /\ functionWithMiddleware testFunction
       (config None (Some errorHandled) (Some validateInput) None)
       [Str "1"; Num 2] world0
     = (Normal (Str "error handled"),
        World {| console := []; nextRef := 2 |}
          [CallInput [Str "1"; Num 2];
           CallError (Err 1 "Inputs must be numbers") [Str "1"; Num 2]])
  /\ count isCallDefinition
       (calls (snd (functionWithMiddleware testFunction
                      (config None (Some errorHandled) (Some validateInput) None)
                      [Str "1"; Num 2] world0)))
     = 0%nat.
Proof.
  split; [repeat split|].
  exact (input_hook_error_recovered_on_original_inputs testFunction
           (config None (Some errorHandled) (Some validateInput) None)
           validateInput errorHandled [Str "1"; Num 2]
           (Err 1 "Inputs must be numbers") env0
           {| console := []; nextRef := 2 |} [] eq_refl eq_refl eq_refl).
Defined.

(** [faultyFunc] throws and [failingHandler] throws in turn: the second
    error comes out. *)
Lemma handler_error_propagates_witness :
  (handleError (config None (Some failingHandler) None None)
   = Some failingHandler
   /\ Throws faultyFunc (config None (Some failingHandler) None None) [] env0
        InvocationStage (Err 1 "test error") []
        {| console := []; nextRef := 2 |} [CallDefinition []]
   /\ failingHandler faultyFunc (Err 1 "test error") []
        {| console := []; nextRef := 2 |}
      = (Throw (Err 2 "handler failed"), {| console := []; nextRef := 3 |}))
  /\ functionWithMiddleware faultyFunc
       (config None (Some failingHandler) None None) [] world0
     = (Throw (Err 2 "handler failed"),
        World {| console := []; nextRef := 3 |}
          [CallDefinition []; CallError (Err 1 "test error") []])
  /\ count isCallError
       (calls (snd (functionWithMiddleware faultyFunc
                      (config None (Some failingHandler) None None) [] world0)))
     = 1%nat.
Proof.
  assert (Hthrows :
            Throws faultyFunc (config None (Some failingHandler) None None) []
              env0 InvocationStage (Err 1 "test error") []
              {| console := []; nextRef := 2 |} [CallDefinition []]).
  { exact (ThrowsInvocation Env faultyFunc
             (config None (Some failingHandler) None None) [] env0 [] env0
             (Err 1 "test error") {| console := []; nextRef := 2 |}
             eq_refl eq_refl). }
  split; [repeat split; exact Hthrows|].
  exact (handler_error_propagates faultyFunc
           (config None (Some failingHandler) None None) failingHandler []
           InvocationStage (Err 1 "test error") [] (Err 2 "handler failed")
           env0 {| console := []; nextRef := 2 |}
           {| console := []; nextRef := 3 |} [CallDefinition []] []
           eq_refl Hthrows eq_refl).
Defined.

(** [C1] does not hold as stated: [validateInput] throws on ("1", 2), and
    the wrapped function does not throw that error but returns what
    [handleError], which was called, made of it. *)
Lemma hook_error_not_propagated_counterexample :
  validateInput testFunction [Str "1"; Num 2] env0
  = (Throw (Err 1 "Inputs must be numbers"), {| console := []; nextRef := 2 |})
  /\ functionWithMiddleware testFunction
       (config None (Some errorHandled) (Some validateInput) None)
       [Str "1"; Num 2] world0
     = (Normal (Str "error handled"),
        World {| console := []; nextRef := 2 |}
          [CallInput [Str "1"; Num 2];
           CallError (Err 1 "Inputs must be numbers") [Str "1"; Num 2]])
  /\ ~ (fst (functionWithMiddleware testFunction
               (config None (Some errorHandled) (Some validateInput) None)
               [Str "1"; Num 2] world0)
        = Throw (Err 1 "Inputs must be numbers")
        /\ count isCallError
             (calls (snd (functionWithMiddleware testFunction
                            (config None (Some errorHandled) (Some validateInput)
                               None)
                            [Str "1"; Num 2] world0)))
           = 0%nat).
Proof.
  split; [reflexivity|]. split; [reflexivity|].
  intros [Hthrown _]. discriminate Hthrown.
Qed.

(** [rejectOutput] throws on the sum of (2, 3): without [handleError] its
    error comes out, with [errorHandled] the call returns. *)
Lemma hook_error_goes_through_catch_witness :
  (Throws testFunction (config None (Some errorHandled) None (Some rejectOutput))
     [Num 2; Num 3] env0 OutputStage (Err 1 "output rejected") [Num 2; Num 3]
     {| console := []; nextRef := 2 |}
     [CallDefinition [Num 2; Num 3]; CallOutput (Num 5) [Num 2; Num 3]]
   /\ (OutputStage = InputStage \/ OutputStage = OutputStage))
  /\ functionWithMiddleware testFunction
       (config None (Some errorHandled) None (Some rejectOutput))
       [Num 2; Num 3] world0
     = (Normal (Str "error handled"),
        World {| console := []; nextRef := 2 |}
          [CallDefinition [Num 2; Num 3]; CallOutput (Num 5) [Num 2; Num 3];
           CallError (Err 1 "output rejected") [Num 2; Num 3]]).
Proof.
  assert (Hthrows :
            Throws testFunction
              (config None (Some errorHandled) None (Some rejectOutput))
              [Num 2; Num 3] env0 OutputStage (Err 1 "output rejected")
              [Num 2; Num 3] {| console := []; nextRef := 2 |}
              [CallDefinition [Num 2; Num 3]; CallOutput (Num 5) [Num 2; Num 3]]).
  { exact (ThrowsOutput Env testFunction
             (config None (Some errorHandled) None (Some rejectOutput))
             [Num 2; Num 3] env0 rejectOutput [Num 2; Num 3] env0 (Num 5) env0
             (Err 1 "output rejected") {| console := []; nextRef := 2 |}
             eq_refl eq_refl eq_refl eq_refl). }
  split; [split; [exact Hthrows | now right]|].
  exact (proj1 (proj2 (hook_error_goes_through_catch testFunction
                         (config None (Some errorHandled) None (Some rejectOutput))
                         [Num 2; Num 3] OutputStage (Err 1 "output rejected")
                         [Num 2; Num 3] env0 {| console := []; nextRef := 2 |}
                         [CallDefinition [Num 2; Num 3];
                          CallOutput (Num 5) [Num 2; Num 3]] []
                         Hthrows (or_intror eq_refl))
                  errorHandled eq_refl)).
Defined.

(** [testFunction], [swapInputs] and [errorHandled] are pure: a call on
    ("a", "b") ends the same way before and after other calls. *)
Lemma wrapped_keeps_no_state_witness :
  pureParts testFunction (config None (Some errorHandled) (Some swapInputs) None)
  /\ fst (functionWithMiddleware testFunction
            (config None (Some errorHandled) (Some swapInputs) None)
            [Str "a"; Str "b"] world0)
     = fst (functionWithMiddleware testFunction
              (config None (Some errorHandled) (Some swapInputs) None)
              [Str "a"; Str "b"]
              (World {| console := ["noise"%string]; nextRef := 7 |}
                 [CallWrapped []]))
  /\ fst (functionWithMiddleware testFunction
            (config None (Some errorHandled) (Some swapInputs) None)
            [Str "a"; Str "b"]
            (callAll
               (functionWithMiddleware testFunction
                  (config None (Some errorHandled) (Some swapInputs) None))
               [[Num 1; Num 2]; []; [Str "a"; Str "b"]]
               (snd (functionWithMiddleware testFunction
                       (config None (Some errorHandled) (Some swapInputs) None)
                       [Str "a"; Str "b"] world0))))
     = fst (functionWithMiddleware testFunction
              (config None (Some errorHandled) (Some swapInputs) None)
              [Str "a"; Str "b"] world0).
Proof.
  assert (Hpure : pureParts testFunction
                    (config None (Some errorHandled) (Some swapInputs) None)).
  { split; [|split; [|split]].
    - intros x. eexists. intros s. reflexivity.
    - intros h x H. injection H as <-. eexists. intros s. reflexivity.
    - intros h output x H. discriminate H.
    - intros h error x H. injection H as <-. eexists. intros s. reflexivity. }
  split; [exact Hpure|].
  exact (wrapped_keeps_no_state testFunction
           (config None (Some errorHandled) (Some swapInputs) None)
           [Str "a"; Str "b"] [[Num 1; Num 2]; []; [Str "a"; Str "b"]] world0
           (World {| console := ["noise"%string]; nextRef := 7 |} [CallWrapped []])
           Hpure).
Defined.

(** With the empty configuration the decorated [faultyFunc] throws the error
    that [faultyFunc] throws. *)
Lemma no_hooks_is_passthrough_witness :
  absentOrEmpty (Some (config (Some []) None None None))
  /\ exists wrapped,
       createFunctionWithMiddleware faultyFunc
         (Some (config (Some []) None None None)) world0
       = (Normal wrapped, world0)
       /\ fst (call wrapped [Num 1] (World env0 [])) = fst (call faultyFunc [Num 1] env0)
       /\ store (snd (call wrapped [Num 1] (World env0 [])))
          = snd (call faultyFunc [Num 1] env0).
Proof.
  assert (Hempty : absentOrEmpty (Some (config (Some []) None None None))).
  { split; [now right | repeat split]. }
  split; [exact Hempty|].
  exact (no_hooks_is_passthrough faultyFunc
           (Some (config (Some []) None None None)) [Num 1] world0 env0 []
           Hempty).
Defined.

(** The test file's assertions after [assertions[1][1] = 8]: the first pair
    passes, the second one fails the decoration. *)
Lemma assertions_checked_at_decoration_witness :
  AllPass
    (functionWithMiddleware testFunction (config (Some failingPairs) None None None))
    [([Num 1; Num 2], Num 3)] world0
    (World env0 [CallWrapped [Num 1; Num 2]; CallDefinition [Num 1; Num 2]])
  /\ forallb safeValue [Num 8; Num 7; Num 3; Num 4] = true
  /\ exists message,
       createFunctionWithMiddleware testFunction
         (Some (config (Some failingPairs) None None None)) world0
       = (Throw (AssertionFailure message),
          World env0
            [CallWrapped [Num 1; Num 2]; CallDefinition [Num 1; Num 2];
             CallWrapped [Num 3; Num 4]; CallDefinition [Num 3; Num 4]])
       /\ checked [CallWrapped [Num 1; Num 2]; CallDefinition [Num 1; Num 2];
                   CallWrapped [Num 3; Num 4]; CallDefinition [Num 3; Num 4]]
          = [] ++ [[Num 1; Num 2]] ++ [[Num 3; Num 4]]
       /\ (forallb safeValue [Num 8; Num 7; Num 3; Num 4] = true ->
           message
           = "Expected testFunction(3, 4) to return 8, but got 7."%string).
Proof.
  assert (Hpass :
            AllPass
              (functionWithMiddleware testFunction
                 (config (Some failingPairs) None None None))
              [([Num 1; Num 2], Num 3)] world0
              (World env0
                 [CallWrapped [Num 1; Num 2]; CallDefinition [Num 1; Num 2]])).
  { exact (AllPassCons Env _ [Num 1; Num 2] (Num 3) [] (Num 3) world0 _ _
             eq_refl eq_refl (AllPassNil Env _ _)). }
  split; [exact Hpass|]. split; [reflexivity|].
  exact (proj2 (proj2 (assertions_checked_at_decoration testFunction
                         (config (Some failingPairs) None None None)
                         [([Num 1; Num 2], Num 3)] world0 _ Hpass))
           [Num 3; Num 4] (Num 8) [] (Num 7)
           (World env0
              [CallWrapped [Num 1; Num 2]; CallDefinition [Num 1; Num 2];
               CallWrapped [Num 3; Num 4]; CallDefinition [Num 3; Num 4]])
           eq_refl eq_refl eq_refl).
Defined.

(** An assertion on [faultyFunc] without [handleError]: the decoration
    throws the error of [faultyFunc], not a mismatch. *)
Lemma assertion_call_error_propagates_witness :
  (assertions (config (Some [([Num 1], Num 1); ([Num 2], Num 2)]) None None None)
   = Some ([] ++ ([Num 1], Num 1) :: [([Num 2], Num 2)])
   /\ AllPass
        (functionWithMiddleware faultyFunc
           (config (Some [([Num 1], Num 1); ([Num 2], Num 2)]) None None None))
        [] world0 world0
   /\ functionWithMiddleware faultyFunc
        (config (Some [([Num 1], Num 1); ([Num 2], Num 2)]) None None None)
        [Num 1] (World env0 [CallWrapped [Num 1]])
      = (Throw (Err 1 "test error"),
         World {| console := []; nextRef := 2 |}
           [CallWrapped [Num 1]; CallDefinition [Num 1]]))
  /\ createFunctionWithMiddleware faultyFunc
       (Some (config (Some [([Num 1], Num 1); ([Num 2], Num 2)]) None None None))
       world0
     = (Throw (Uncaught (Err 1 "test error")),
        World {| console := []; nextRef := 2 |}
          [CallWrapped [Num 1]; CallDefinition [Num 1]]).
Proof.
  split; [repeat split; apply AllPassNil|].
  exact (proj1 (assertion_call_error_propagates faultyFunc
                  (config (Some [([Num 1], Num 1); ([Num 2], Num 2)])
                     None None None)
                  [] [Num 1] (Num 1) [([Num 2], Num 2)] (Err 1 "test error")
                  world0 world0
                  (World {| console := []; nextRef := 2 |}
                     [CallWrapped [Num 1]; CallDefinition [Num 1]])
                  eq_refl (AllPassNil Env _ _) eq_refl)).
Defined.

End Witnesses.

(** ** The further properties on the functions of the test file *)

Module MoreWitnesses.
Import Examples.

Local Open Scope Z_scope.

(** [errorHandled] returns on every error, so the decorated [faultyFunc]
    returns. *)
Lemma recovering_handler_never_throws_witness :
  (handleError (config None (Some errorHandled) None None) = Some errorHandled
   /\ recoversAlways faultyFunc errorHandled)
  /\ exists output w',
       functionWithMiddleware faultyFunc
         (config None (Some errorHandled) None None) [Num 1] world0
       = (Normal output, w').
Proof.
  assert (Hrecovers : recoversAlways faultyFunc errorHandled).
  { intros error x s. exists (Str "error handled"), s. reflexivity. }
  split; [split; [reflexivity | exact Hrecovers]|].
  exact (recovering_handler_never_throws faultyFunc
           (config None (Some errorHandled) None None) errorHandled [Num 1]
           world0 eq_refl Hrecovers).
Defined.

(** The decorated [faultyFunc] with [failingHandler] throws the error of
    [failingHandler], which was given the error of [faultyFunc]. *)
Lemma wrapped_throws_only_user_errors_witness :
  functionWithMiddleware faultyFunc
    (config None (Some failingHandler) None None) [] world0
  = (Throw (Err 2 "handler failed"),
     World {| console := []; nextRef := 3 |}
       [CallDefinition []; CallError (Err 1 "test error") []])
  /\ exists st e xs s made,
       Throws faultyFunc (config None (Some failingHandler) None None) [] env0
         st e xs s made
       /\ ((handleError (config None (Some failingHandler) None None) = None
            /\ Err 2 "handler failed" = e
            /\ World {| console := []; nextRef := 3 |}
                 [CallDefinition []; CallError (Err 1 "test error") []]
               = World s ([] ++ made))
           \/ (exists h,
                 handleError (config None (Some failingHandler) None None)
                 = Some h
                 /\ h faultyFunc e xs s
                    = (Throw (Err 2 "handler failed"),
                       store (World {| console := []; nextRef := 3 |}
                                [CallDefinition [];
                                 CallError (Err 1 "test error") []]))
                 /\ calls (World {| console := []; nextRef := 3 |}
                             [CallDefinition [];
                              CallError (Err 1 "test error") []])
                    = [] ++ made ++ [CallError e xs])).
Proof.
  split; [reflexivity|].
  exact (wrapped_throws_only_user_errors faultyFunc
           (config None (Some failingHandler) None None) [] env0 []
           (Err 2 "handler failed")
           (World {| console := []; nextRef := 3 |}
              [CallDefinition []; CallError (Err 1 "test error") []])
           eq_refl).
Defined.

(** Neither [testFunction] nor [validateInput] nor [errorHandled] prints:
    the console stays empty through calls and decoration. *)
Lemma user_invariant_kept_witness :
  (partsKeep (fun env => console env = []) testFunction
     (config (Some failingPairs) (Some errorHandled) (Some validateInput) None)
   /\ console (store world0) = [])
  /\ console (store (snd (functionWithMiddleware testFunction
                            (config (Some failingPairs) (Some errorHandled)
                               (Some validateInput) None)
                            [Str "1"; Num 2] world0))) = []
  /\ console (store (snd (createFunctionWithMiddleware testFunction
                            (Some (config (Some failingPairs) (Some errorHandled)
                                     (Some validateInput) None))
                            world0))) = [].
Proof.
  assert (Hparts : partsKeep (fun env => console env = []) testFunction
                     (config (Some failingPairs) (Some errorHandled)
                        (Some validateInput) None)).
  { split; [|split; [|split]].
    - intros x s Hs. exact Hs.
    - intros h x H s Hs. injection H as <-. unfold validateInput.
      destruct (negb (isNumber (arg 0 x)) || negb (isNumber (arg 1 x)));
        exact Hs.
    - intros h output x H. discriminate H.
    - intros h error x H s Hs. injection H as <-. exact Hs. }
  split; [split; [exact Hparts | reflexivity]|].
  exact (user_invariant_kept (fun env => console env = []) testFunction
           (config (Some failingPairs) (Some errorHandled) (Some validateInput)
              None)
           [Str "1"; Num 2] world0 Hparts eq_refl).
Defined.

(** With hooks that pass everything on, the decorated [faultyFunc] throws
    what [faultyFunc] throws. *)
Lemma transparent_hooks_are_passthrough_witness :
  transparentHooks faultyFunc
    (config None (Some rethrow) (Some passInputs) (Some passOutput))
  /\ fst (functionWithMiddleware faultyFunc
            (config None (Some rethrow) (Some passInputs) (Some passOutput))
            [Num 1] world0)
     = fst (call faultyFunc [Num 1] env0)
  /\ store (snd (functionWithMiddleware faultyFunc
                   (config None (Some rethrow) (Some passInputs)
                      (Some passOutput))
                   [Num 1] world0))
     = snd (call faultyFunc [Num 1] env0).
Proof.
  assert (Htransparent :
            transparentHooks faultyFunc
              (config None (Some rethrow) (Some passInputs) (Some passOutput))).
  { split; [|split].
    - intros h x s H. injection H as <-. reflexivity.
    - intros h output x s H. injection H as <-. reflexivity.
    - intros h error x s H. injection H as <-. reflexivity. }
  split; [exact Htransparent|].
  exact (transparent_hooks_are_passthrough faultyFunc
           (config None (Some rethrow) (Some passInputs) (Some passOutput))
           [Num 1] env0 [] Htransparent).
Defined.

(** An assertion that expects NaN fails the decoration of [testFunction]. *)
Lemma nan_expectation_fails_decoration_witness :
  In ([Undefined; Num 1], NaN)
    (pairsOf (config (Some [([Num 1; Num 2], Num 3); ([Undefined; Num 1], NaN)])
                None None None))
  /\ exists failed w,
       createFunctionWithMiddleware testFunction
         (Some (config (Some [([Num 1; Num 2], Num 3); ([Undefined; Num 1], NaN)])
                  None None None))
         world0
       = (Throw failed, w).
Proof.
  split; [right; left; reflexivity|].
  exact (nan_expectation_fails_decoration testFunction
           (config (Some [([Num 1; Num 2], Num 3); ([Undefined; Num 1], NaN)])
              None None None)
           [Undefined; Num 1] world0 (or_intror (or_introl eq_refl))).
Defined.

(** [testFunction] returns the number 7 on (3, 4) where the string "7" is
    expected. *)
Lemma mismatch_message_hides_types_witness :
  (isSafeInteger 7 = true
   /\ forallb safeValue [Num 3; Num 4] = true
   /\ pairsOf (config (Some [([Num 3; Num 4], Str "7")]) None None None)
   = [] ++ ([Num 3; Num 4], Str (stringOfZ 7)) :: []
   /\ AllPass
        (functionWithMiddleware testFunction
           (config (Some [([Num 3; Num 4], Str "7")]) None None None))
        [] world0 world0
   /\ functionWithMiddleware testFunction
        (config (Some [([Num 3; Num 4], Str "7")]) None None None)
        [Num 3; Num 4] (World env0 [CallWrapped [Num 3; Num 4]])
      = (Normal (Num 7),
         World env0 [CallWrapped [Num 3; Num 4]; CallDefinition [Num 3; Num 4]]))
  /\ createFunctionWithMiddleware testFunction
       (Some (config (Some [([Num 3; Num 4], Str "7")]) None None None)) world0
     = (Throw (AssertionFailure
                 "Expected testFunction(3, 4) to return 7, but got 7."),
        World env0 [CallWrapped [Num 3; Num 4]; CallDefinition [Num 3; Num 4]]).
Proof.
  split; [repeat split; apply AllPassNil|].
  exact (mismatch_message_hides_types testFunction
           (config (Some [([Num 3; Num 4], Str "7")]) None None None)
           [] [Num 3; Num 4] 7 [] world0 world0
           (World env0 [CallWrapped [Num 3; Num 4]; CallDefinition [Num 3; Num 4]])
           eq_refl eq_refl eq_refl (AllPassNil Env _ _) eq_refl).
Defined.

(** Two layers that mark the first input: the outer mark is put first, the
    inner one second, and [testFunction] concatenates. *)
Lemma nested_layers_compose_witness :
  (inputStage
     (wrapperOf testFunction (config None None (Some (appendMark "i")) None))
     {| assertions := None; handleError := None;
        handleInput := Some (appendMark "o"); handleOutput := None |}
     [Str "a"; Str "b"] world0
   = (Normal [Str "ao"; Str "b"], world0)
   /\ inputStage testFunction (config None None (Some (appendMark "i")) None)
        [Str "ao"; Str "b"] env0
      = (Normal [Str "aoi"; Str "b"], env0)
   /\ call testFunction [Str "aoi"; Str "b"] env0 = (Normal (Str "aoib"), env0)
   /\ outputStage testFunction (config None None (Some (appendMark "i")) None)
        (Str "aoib") [Str "aoi"; Str "b"] env0
      = (Normal (Str "aoib"), env0)
   /\ outputStage
        (wrapperOf testFunction (config None None (Some (appendMark "i")) None))
        {| assertions := None; handleError := None;
           handleInput := Some (appendMark "o"); handleOutput := None |}
        (Str "aoib") [Str "ao"; Str "b"]
        (World env0 [CallInput [Str "ao"; Str "b"];
                     CallDefinition [Str "aoi"; Str "b"]])
      = (Normal (Str "aoib"),
         World env0 [CallInput [Str "ao"; Str "b"];
                     CallDefinition [Str "aoi"; Str "b"]]))
  /\ functionWithMiddleware
       (wrapperOf testFunction (config None None (Some (appendMark "i")) None))
       {| assertions := None; handleError := None;
          handleInput := Some (appendMark "o"); handleOutput := None |}
       [Str "a"; Str "b"] (World world0 [])
     = (Normal (Str "aoib"),
        World (World env0 [CallInput [Str "ao"; Str "b"];
                           CallDefinition [Str "aoi"; Str "b"]])
          [CallInput [Str "a"; Str "b"]; CallDefinition [Str "ao"; Str "b"]]).
Proof.
  split; [repeat split|].
  exact (nested_layers_compose testFunction
           (config None None (Some (appendMark "i")) None)
           {| assertions := None; handleError := None;
              handleInput := Some (appendMark "o"); handleOutput := None |}
           [Str "a"; Str "b"] [Str "ao"; Str "b"] [Str "aoi"; Str "b"]
           (Str "aoib") (Str "aoib") (Str "aoib") env0 env0 env0 env0 env0
           [] []
           (World env0 [CallInput [Str "ao"; Str "b"];
                        CallDefinition [Str "aoi"; Str "b"]])
           [] eq_refl eq_refl eq_refl eq_refl eq_refl).
Defined.

(** The inner layer marks the first input and handles no error, the outer
    layer answers errors: its handler gets the error of [faultyFunc] and
    the inputs without the inner mark. *)
Lemma inner_error_reaches_outer_handler_witness :
  (handleError (config None None (Some (appendMark "i")) None) = None
   /\ handleError
        {| assertions := None; handleError := Some (answer "handled outside");
           handleInput := None; handleOutput := None |}
      = Some (answer (St := world Env) "handled outside")
   /\ inputStage
        (wrapperOf faultyFunc (config None None (Some (appendMark "i")) None))
        {| assertions := None; handleError := Some (answer "handled outside");
           handleInput := None; handleOutput := None |}
        [Str "a"; Str "b"] world0
      = (Normal [Str "a"; Str "b"], world0)
   /\ inputStage faultyFunc (config None None (Some (appendMark "i")) None)
        [Str "a"; Str "b"] env0
      = (Normal [Str "ai"; Str "b"], env0)
   /\ call faultyFunc [Str "ai"; Str "b"] env0
      = (Throw (Err 1 "test error"), {| console := []; nextRef := 2 |}))
  /\ functionWithMiddleware
       (wrapperOf faultyFunc (config None None (Some (appendMark "i")) None))
       {| assertions := None; handleError := Some (answer "handled outside");
          handleInput := None; handleOutput := None |}
       [Str "a"; Str "b"] (World world0 [])
     = (Normal (Str "handled outside"),
        World (World {| console := []; nextRef := 2 |}
                 [CallInput [Str "a"; Str "b"];
                  CallDefinition [Str "ai"; Str "b"]])
          [CallDefinition [Str "a"; Str "b"];
           CallError (Err 1 "test error") [Str "a"; Str "b"]]).
Proof.
  split; [repeat split|].
  exact (inner_error_reaches_outer_handler faultyFunc
           (config None None (Some (appendMark "i")) None)
           {| assertions := None; handleError := Some (answer "handled outside");
              handleInput := None; handleOutput := None |}
           (answer "handled outside")
           [Str "a"; Str "b"] [Str "a"; Str "b"] [Str "ai"; Str "b"]
           (Err 1 "test error") env0 env0 env0
           {| console := []; nextRef := 2 |} [] [] []
           eq_refl eq_refl eq_refl eq_refl eq_refl).
Defined.

End MoreWitnesses.
